(** * DIABETEC: the medication scheduling and dose-adherence engine

  A shallow embedding of the dose ledger, the adherence evaluator, the
  dose recorder ([services/storageService.ts]) and the fixed-time reminder
  poll ([App.tsx]), with the properties the specification states about
  them.

  Conventions of the embedding.
  - A JavaScript array is a [list]; [arr.length] is [length], [arr[i] = x]
    on a copy is stdpp's [<[i:=x]>], [arr.splice(i, 1)] is [delete i],
    [arr.findIndex(P)] is [list_find P] (which also hands back the element
    found, i.e. [arr[arr.findIndex(P)]]), [arr.unshift(x)] is [x :: arr].
  - An optional field ([fixedTimes?: string[]]) is an [option].
  - An instant ([Date]) is the number of milliseconds since the epoch, in
    [Z].  A ledger entry stores its instant as an ISO string written by
    [toISOString] and read back by [new Date(...)]; the two round-trip at
    millisecond precision, so the field is modelled by the instant itself.
  - The local calendar ([toDateString], [toLocaleString]) belongs to the
    host; the engine is stated over an arbitrary one, and a UTC calendar
    is supplied for running it.
  - [localStorage] holds at most one profile; writes are taken to succeed. *)

From Stdlib Require Import ZArith Ascii String List Lia.
From stdpp Require Import base decidable option numbers list strings pretty gmap.

Local Open Scope string_scope.
Local Open Scope nat_scope.

(** ** Data model ([types.ts]) *)

Inductive ScheduleType := fixed | meal_relative.
Inductive MealTime := breakfast | lunch | dinner.
Inductive MealTiming := before | after.

Record MealTrigger := { meal : MealTime; timing : MealTiming }.

Module Medication.
Record t := mk {
  id : string;
  name : string;
  dosage : string;
  frequency : string;
  instructions : string;
  takenToday : bool;
  requiresFood : option bool;
  scheduleType : ScheduleType;
  fixedTimes : option (list string);
  mealTriggers : option (list MealTrigger)
}.

(** [{ ...med, takenToday: b }] *)
Definition with_takenToday (b : bool) (med : t) : t :=
  mk (id med) (name med) (dosage med) (frequency med) (instructions med)
     b (requiresFood med) (scheduleType med) (fixedTimes med)
     (mealTriggers med).

(** Every field but [takenToday] agrees. *)
Definition same_but_takenToday (m m' : t) : Prop :=
  id m = id m' ∧ name m = name m' ∧ dosage m = dosage m' ∧
  frequency m = frequency m' ∧ instructions m = instructions m' ∧
  requiresFood m = requiresFood m' ∧ scheduleType m = scheduleType m' ∧
  fixedTimes m = fixedTimes m' ∧ mealTriggers m = mealTriggers m'.
End Medication.

Inductive LogStatus := taken | skipped.

Module MedicationLog.
Record t := mk {
  id : string;
  medName : string;
  timestamp : Z;
  formattedDate : string;
  context : option string;
  status : LogStatus
}.
End MedicationLog.

Inductive Level := Low | Medium | High.

Module Meal.
Record t := mk {
  name : string;
  description : string;
  ingredients : list string;
  calories : Z;
  glycemicIndex : Level;
  suitableFor : list string;
  imageUrl : option string
}.
End Meal.

Module Exercise.
Record t := mk {
  name : string;
  reps : string;
  duration : option string;
  visualDescription : option string;
  tips : option string
}.
End Exercise.

Module ExerciseRoutine.
Record t := mk {
  title : string;
  durationMinutes : Z;
  intensity : Level;
  description : string;
  medicalTip : option string;
  exercises : list Exercise.t;
  safetyNotes : string
}.
End ExerciseRoutine.

Inductive Gender := male | female | other.
Inductive ActivityLevel := sedentary | light | moderate | active | athlete.

Module UserProfile.
Record t := mk {
  id : option string;
  name : string;
  age : Z;
  gender : Gender;
  height : Z;
  weight : Z;
  activityLevel : ActivityLevel;
  diagnoses : list string;
  allowedFoods : list string;
  forbiddenFoods : list string;
  allergies : list string;
  goals : string;
  medications : list Medication.t;
  history : list MedicationLog.t;
  onboardingComplete : bool;
  mealPlan : option (list Meal.t);
  (** [exerciseRoutine?: ExerciseRoutine | null]: absent, null or a routine *)
  exerciseRoutine : option (option ExerciseRoutine.t)
}.

(** [{ ...profile, medications: meds }] *)
Definition with_medications (meds : list Medication.t) (p : t) : t :=
  mk (id p) (name p) (age p) (gender p) (height p) (weight p)
     (activityLevel p) (diagnoses p) (allowedFoods p) (forbiddenFoods p)
     (allergies p) (goals p) meds (history p) (onboardingComplete p)
     (mealPlan p) (exerciseRoutine p).

(** [{ ...profile, medications: meds, history: hist }] *)
Definition with_medications_history
    (meds : list Medication.t) (hist : list MedicationLog.t) (p : t) : t :=
  mk (id p) (name p) (age p) (gender p) (height p) (weight p)
     (activityLevel p) (diagnoses p) (allowedFoods p) (forbiddenFoods p)
     (allergies p) (goals p) meds hist (onboardingComplete p)
     (mealPlan p) (exerciseRoutine p).

(** Every field but [medications] and [history] agrees. *)
Definition same_frame (p q : t) : Prop :=
  id p = id q ∧ name p = name q ∧ age p = age q ∧ gender p = gender q ∧
  height p = height q ∧ weight p = weight q ∧
  activityLevel p = activityLevel q ∧ diagnoses p = diagnoses q ∧
  allowedFoods p = allowedFoods q ∧ forbiddenFoods p = forbiddenFoods q ∧
  allergies p = allergies q ∧ goals p = goals q ∧
  onboardingComplete p = onboardingComplete q ∧
  mealPlan p = mealPlan q ∧ exerciseRoutine p = exerciseRoutine q.
End UserProfile.

(** ** The profile store ([services/storageService.ts]) *)

Definition DEFAULT_PROFILE : UserProfile.t :=
  UserProfile.mk None "" 0 other 0 0 sedentary [] [] [] [] "" [] [] false
               (Some []) (Some None).

(** What [localStorage] holds under [STORAGE_KEY]. *)
Definition Store := option UserProfile.t.

Definition getProfile (st : Store) : UserProfile.t :=
  match st with
  | None => DEFAULT_PROFILE
  | Some parsed => parsed
  end.

(** The local write of [saveProfile], [localStorage.setItem(STORAGE_KEY,
    JSON.stringify(profile))].  The store is the collaborator of the
    specification, which replaces the persisted profile on a write: the
    background push to the cloud and the retry without images when the
    quota is exceeded are on its side and are not embedded. *)
Definition saveProfile (profile : UserProfile.t) (_ : Store) : Store :=
  Some profile.

(** [n || 1] on an array length *)
Definition or_one (n : nat) : nat :=
  match n with
  | O => 1
  | S _ => n
  end.

(** Helper to determine target doses *)
Definition getTargetDoses (med : Medication.t) : nat :=
  match Medication.scheduleType med, Medication.fixedTimes med with
  | fixed, Some times => or_one (length times)
  | _, _ =>
    match Medication.scheduleType med, Medication.mealTriggers med with
    | meal_relative, Some triggers => or_one (length triggers)
    | _, _ => 1
    end
  end.

(** [|xs|] for an optional schedule list: an absent list has no element. *)
Definition size_opt {A} (xs : option (list A)) : nat :=
  match xs with
  | None => 0
  | Some l => length l
  end.

(** ** The host calendar

    What the engine asks of a JavaScript [Date] built from an instant: its
    rendering as a local calendar date, the display string stored in
    [formattedDate], and the local wall-clock fields read by the reminder
    poll. *)
Class Host := {
  toDateString : Z → string;
  toLocaleString : Z → string;
  getHours : Z → Z;
  getMinutes : Z → Z;
  getDate : Z → Z
}.

Section Engine.
Context `{Host}.

(** The filter predicate shared by the recorder, the undo and the progress
    display: [h.medName === medName &&
    new Date(h.timestamp).toDateString() === todayStr]. *)
Definition takenOn (medName todayStr : string) (h : MedicationLog.t) : Prop :=
  MedicationLog.medName h = medName ∧
  toDateString (MedicationLog.timestamp h) = todayStr.

#[global] Instance takenOn_dec medName todayStr h :
  Decision (takenOn medName todayStr h).
Proof. unfold takenOn. apply _. Defined.

(** [getDoseProgress] of [components/MedicationManager.tsx]: the pair
    [{ taken, total }] the medication list is rendered from. *)
Definition getDoseProgress (now : Z) (profile : UserProfile.t)
    (med : Medication.t) : nat * nat :=
  let todayStr := toDateString now in
  let takenCount :=
    length (filter (takenOn (Medication.name med) todayStr)
                   (UserProfile.history profile)) in
  let targetCount :=
    match Medication.scheduleType med, Medication.fixedTimes med with
    | fixed, Some times => or_one (length times)
    | _, _ =>
        match Medication.scheduleType med, Medication.mealTriggers med with
        | meal_relative, Some triggers => or_one (length triggers)
        | _, _ => 1
        end
    end in
  (takenCount, targetCount).

(** [const isCompleted = taken >= total] of the same component. *)
Definition isCompleted (now : Z) (profile : UserProfile.t)
    (med : Medication.t) : bool :=
  let progress := getDoseProgress now profile med in
  bool_decide (snd progress ≤ fst progress).

(** Helper to count today's doses.  The arrow function of the source reads
    [h.medName === medId || (h.medName === name && date === todayStr)]
    where [name] is [getProfile().medications.find(m => m.id === medId)?.name];
    a comparison with [undefined] is false. *)
Definition getTodayDoseCount (st : Store) (now : Z)
    (history : list MedicationLog.t) (medId : string) : nat :=
  let todayStr := toDateString now in
  let found :=
    snd <$> list_find (λ m, Medication.id m = medId)
                      (UserProfile.medications (getProfile st)) in
  length (filter
    (λ h, MedicationLog.medName h = medId ∨
          (Some (MedicationLog.medName h) = (Medication.name <$> found) ∧
           toDateString (MedicationLog.timestamp h) = todayStr))
    history).

(** [context: string = 'Manual'] *)
Definition context_or_default (context : option string) : string :=
  default "Manual" context.

Definition recordMedicationDose (now : Z) (medId : string)
    (context : option string) (st : Store) : UserProfile.t * Store :=
  let profile := getProfile st in
  match list_find (λ m, Medication.id m = medId)
                  (UserProfile.medications profile) with
  | None => (profile, st)
  | Some (medIndex, med) =>
      (* 1. Add Log Entry *)
      let logEntry :=
        MedicationLog.mk (pretty now) (Medication.name med) now
          (toLocaleString now) (Some (context_or_default context)) taken in
      let newHistory := logEntry :: UserProfile.history profile in
      (* 2. Check if daily goal is met *)
      let todayStr := toDateString now in
      let takenCount :=
        length (filter (takenOn (Medication.name med) todayStr) newHistory) in
      let target := getTargetDoses med in
      let isFullyCompleted := bool_decide (target ≤ takenCount) in
      let updatedMeds :=
        <[medIndex := Medication.with_takenToday isFullyCompleted med]>
          (UserProfile.medications profile) in
      let newProfile :=
        UserProfile.with_medications_history updatedMeds newHistory profile in
      (newProfile, saveProfile newProfile st)
  end.

Definition removeLastMedicationDose (now : Z) (medId : string)
    (st : Store) : UserProfile.t * Store :=
  let profile := getProfile st in
  match list_find (λ m, Medication.id m = medId)
                  (UserProfile.medications profile) with
  | None => (profile, st)
  | Some (medIndex, med) =>
      let todayStr := toDateString now in
      let history := UserProfile.history profile in
      (* Find the index of the most recent log for this med today *)
      let history :=
        match list_find (takenOn (Medication.name med) todayStr) history with
        | Some (logIndexToRemove, _) => delete logIndexToRemove history
        | None => history
        end in
      (* Re-evaluate completion status *)
      let takenCount :=
        length (filter (takenOn (Medication.name med) todayStr) history) in
      let target := getTargetDoses med in
      let updatedMeds :=
        <[medIndex :=
            Medication.with_takenToday (bool_decide (target ≤ takenCount)) med]>
          (UserProfile.medications profile) in
      let newProfile :=
        UserProfile.with_medications_history updatedMeds history profile in
      (newProfile, saveProfile newProfile st)
  end.

Definition deleteMedication (medId : string) (st : Store)
    : UserProfile.t * Store :=
  let profile := getProfile st in
  let updatedMeds :=
    filter (λ m, Medication.id m ≠ medId) (UserProfile.medications profile) in
  let newProfile := UserProfile.with_medications updatedMeds profile in
  (newProfile, saveProfile newProfile st).

Definition resetDailyTracking (st : Store) : UserProfile.t * Store :=
  let profile := getProfile st in
  let updatedMeds :=
    map (Medication.with_takenToday false) (UserProfile.medications profile) in
  let newProfile := UserProfile.with_medications updatedMeds profile in
  (newProfile, saveProfile newProfile st).

(** *** Vocabulary of the specification *)

(** [medId] resolves to [med], the first medication of the stored profile
    carrying that id, at position [medIndex]. *)
Definition resolves (st : Store) (medId : string) (medIndex : nat)
    (med : Medication.t) : Prop :=
  list_find (λ m, Medication.id m = medId)
            (UserProfile.medications (getProfile st)) = Some (medIndex, med).

(** [medId] resolves to no medication of the stored profile. *)
Definition unresolved (st : Store) (medId : string) : Prop :=
  list_find (λ m, Medication.id m = medId)
            (UserProfile.medications (getProfile st)) = None.

(** [countToday(medName)] of the dose ledger. *)
Definition countToday (now : Z) (history : list MedicationLog.t)
    (medName : string) : nat :=
  length (filter (takenOn medName (toDateString now)) history).

(** The cache of one medication agrees with the ledger. *)
Definition cacheAgrees (now : Z) (profile : UserProfile.t)
    (med : Medication.t) : Prop :=
  Medication.takenToday med = true ↔
  getTargetDoses med ≤
    countToday now (UserProfile.history profile) (Medication.name med).

(** The cache of every medication of the profile agrees with the ledger. *)
Definition cacheConsistent (now : Z) (profile : UserProfile.t) : Prop :=
  Forall (cacheAgrees now profile) (UserProfile.medications profile).

End Engine.

(** ** The fixed-time reminder poll ([App.tsx]) *)

Module App.

(** What a reminder is shown through: a browser notification when the
    permission is granted, the in-app toast otherwise. *)
Inductive Alert :=
  | BrowserNotification (title body : string)
  | Toast (message : string).

(** One emitted primary reminder, labelled with the medication and the
    scheduled time it is for and with its de-duplication key. *)
Record Reminder := {
  med : Medication.t;
  timeStr : string;
  key : string;
  alert : Alert
}.

(** [s.split(sep)] for a one-character separator *)
Fixpoint split (sep : ascii) (s : string) : list string :=
  match s with
  | EmptyString => [EmptyString]
  | String c rest =>
      if Ascii.eqb c sep then EmptyString :: split sep rest
      else match split sep rest with
           | w :: ws => String c w :: ws
           | [] => [String c EmptyString]
           end
  end.

Definition digit_value (c : ascii) : option Z :=
  let n := Z.of_nat (nat_of_ascii c) in
  if ((48 <=? n) && (n <=? 57))%Z then Some (n - 48)%Z else None.

Fixpoint digits_value (acc : Z) (s : string) : option Z :=
  match s with
  | EmptyString => Some acc
  | String c rest =>
      match digit_value c with
      | Some d => digits_value (10 * acc + d)%Z rest
      | None => None
      end
  end.

(** [Number(s)] on the pieces of a time of day: a run of decimal digits is
    its value and the empty string is 0; [None] is [NaN].  Signs, exponents,
    fractions, hexadecimal and blanks, which [Number] also reads, do not
    occur in an ["HH:MM"] time and are not embedded. *)
Definition Number (s : string) : option Z := digits_value 0 s.

(** Vocabulary for the session state, a log of what was emitted paired with
    the set of keys sent: [acc'] continues [acc] when the log has grown at
    its end by entries that satisfy [Q], whose keys were not in the set and
    are pairwise distinct, and the set has grown by exactly those keys. *)
Definition continues {E : Type} (keyOf : E → string) (Q : E → Prop)
    (acc acc' : list E * gset string) : Prop :=
  ∃ new : list E,
    fst acc' = (fst acc ++ new)%list ∧
    Forall Q new ∧
    NoDup (keyOf <$> new) ∧
    (∀ e, e ∈ new → keyOf e ∉ snd acc) ∧
    snd acc' = list_to_set (keyOf <$> new) ∪ snd acc.

Section Poll.
Context `{Host}.

Definition currentMinutes (now : Z) : Z :=
  (getHours now * 60 + getMinutes now)%Z.

(** Helper: Convert HH:MM to minutes.  [[h, m] = parts.map(Number)]; a
    missing [m] is [undefined] and makes the sum [NaN]. *)
Definition getMinutes (timeStr : string) : option Z :=
  match Number <$> split ":" timeStr with
  | Some h :: Some m :: _ => Some (h * 60 + m)%Z
  | _ => None
  end.

(** Unique key per day *)
Definition notifKey (med : Medication.t) (timeStr : string) (now : Z)
    : string :=
  Medication.id med ++ "-" ++ timeStr ++ "-" ++ pretty (getDate now).

Definition primaryAlert (granted : bool) (med : Medication.t) : Alert :=
  let title := "💊 Hora de tu medicamento" in
  let body :=
    "Es hora de tomar: " ++ Medication.name med ++ " (" ++
    Medication.dosage med ++ ")" in
  if granted then BrowserNotification title body
  else Toast (title ++ ": " ++ body).

(** The body of [med.fixedTimes.forEach(timeStr => ...)], threading the
    reminders emitted so far and [sentNotifications.current]. *)
Definition checkTime (granted : bool) (now : Z) (med : Medication.t)
    (acc : list Reminder * gset string) (timeStr : string)
    : list Reminder * gset string :=
  let '(emitted, sent) := acc in
  match getMinutes timeStr with
  | None => acc
  | Some scheduledMinutes =>
      let diff := (currentMinutes now - scheduledMinutes)%Z in
      let notifKey := notifKey med timeStr now in
      (* Trigger window: Exact time or up to 2 minutes late *)
      if ((0 <=? diff) && (diff <=? 2))%Z then
        if bool_decide (notifKey ∈ sent) then acc
        else ((emitted ++ [Build_Reminder med timeStr notifKey
                             (primaryAlert granted med)])%list,
              {[notifKey]} ∪ sent)
      else acc
  end.

(** The body of [profile.medications.forEach(med => ...)] *)
Definition checkMedication (granted : bool) (now : Z)
    (acc : list Reminder * gset string) (med : Medication.t)
    : list Reminder * gset string :=
  match Medication.scheduleType med, Medication.fixedTimes med with
  | fixed, Some times =>
      if Medication.takenToday med then acc
      else foldl (checkTime granted now med) acc times
  | _, _ => acc
  end.

Definition checkMedications (profile : UserProfile.t) (granted : bool)
    (now : Z) (sent : gset string) : list Reminder * gset string :=
  foldl (checkMedication granted now) ([], sent)
        (UserProfile.medications profile).

(** One firing of the interval set up by the effect, which installs it only
    for a loaded profile whose onboarding is complete.  The log pairs each
    reminder with the instant of the tick that emitted it. *)
Definition pollTick (profile : option UserProfile.t) (granted : bool)
    (acc : list (Z * Reminder) * gset string) (now : Z)
    : list (Z * Reminder) * gset string :=
  match profile with
  | Some p =>
      if UserProfile.onboardingComplete p then
        let '(emitted, sent) := checkMedications p granted now (snd acc) in
        ((fst acc ++ map (pair now) emitted)%list, sent)
      else acc
  | None => acc
  end.

(** The session: [sentNotifications] starts as [sent] and the interval
    fires at each instant of [ticks]. *)
Definition poll (profile : option UserProfile.t) (granted : bool)
    (ticks : list Z) (sent : gset string)
    : list (Z * Reminder) * gset string :=
  foldl (pollTick profile granted) ([], sent) ticks.

(** [now] falls in the trigger window of [timeStr]: the scheduled minute
    or up to two minutes after it, on the clock of the host. *)
Definition inWindow (now : Z) (timeStr : string) : Prop :=
  ∃ scheduledMinutes,
    getMinutes timeStr = Some scheduledMinutes ∧
    (0 ≤ currentMinutes now - scheduledMinutes ≤ 2)%Z.

(** A log entry carries the key the code computes at its tick. *)
Definition keyedAt (e : Z * Reminder) : Prop :=
  key (snd e) = notifKey (med (snd e)) (timeStr (snd e)) (fst e).

End Poll.

(** Check every 30 seconds: the [n] firings of [setInterval(_, 30000)]
    installed at [start]. *)
Fixpoint intervalTicks (start : Z) (n : nat) : list Z :=
  match n with
  | O => []
  | S n' => (start + 30000)%Z :: intervalTicks (start + 30000)%Z n'
  end.

End App.

(** ** A host on UTC *)

Module UTC.

Definition msPerDay : Z := 86400000.

Definition dayNumber (t : Z) : Z := (t `div` msPerDay)%Z.

(** Year, month and day of the month of a day number (days since
    1970-01-01), in the proleptic Gregorian calendar. *)
Definition civil (days : Z) : Z * Z * Z :=
  let z := (days + 719468)%Z in
  let era := (z `div` 146097)%Z in
  let doe := (z - era * 146097)%Z in
  let yoe :=
    ((doe - doe `div` 1460 + doe `div` 36524 - doe `div` 146096) `div` 365)%Z in
  let doy := (doe - (365 * yoe + yoe `div` 4 - yoe `div` 100))%Z in
  let mp := ((5 * doy + 2) `div` 153)%Z in
  let d := (doy - (153 * mp + 2) `div` 5 + 1)%Z in
  let m := (if mp <? 10 then mp + 3 else mp - 9)%Z in
  let y := (yoe + era * 400 + (if m <=? 2 then 1 else 0))%Z in
  (y, m, d).

(** 0 is Sunday; 1970-01-01 was a Thursday. *)
Definition weekday (days : Z) : Z := ((days + 4) `mod` 7)%Z.

Definition pad (width : nat) (n : Z) : string :=
  let s := pretty n in
  string_of_list_ascii (repeat "0"%char (width - String.length s)) ++ s.

Definition dayNames : list string :=
  ["Sun"; "Mon"; "Tue"; "Wed"; "Thu"; "Fri"; "Sat"].

Definition monthNames : list string :=
  ["Jan"; "Feb"; "Mar"; "Apr"; "May"; "Jun";
   "Jul"; "Aug"; "Sep"; "Oct"; "Nov"; "Dec"].

Definition diasCortos : list string :=
  ["dom"; "lun"; "mar"; "mié"; "jue"; "vie"; "sáb"].

Definition toDateString (t : Z) : string :=
  let days := dayNumber t in
  let '(y, m, d) := civil days in
  nth (Z.to_nat (weekday days)) dayNames "" ++ " " ++
  nth (Z.to_nat (m - 1)) monthNames "" ++ " " ++
  pad 2 d ++ " " ++ pad 4 y.

Definition getHours (t : Z) : Z := ((t `mod` msPerDay) `div` 3600000)%Z.

Definition getMinutes (t : Z) : Z := ((t `mod` 3600000) `div` 60000)%Z.

Definition getDate (t : Z) : Z := snd (civil (dayNumber t)).

Definition toLocaleString (t : Z) : string :=
  nth (Z.to_nat (weekday (dayNumber t))) diasCortos "" ++ ", " ++
  pad 2 (getHours t) ++ ":" ++ pad 2 (getMinutes t).

Definition host : Host :=
  Build_Host toDateString toLocaleString getHours getMinutes getDate.

End UTC.

(** ** Concrete profiles and instants, on the UTC host *)

Module Scenario.

(** 2026-01-05T08:00:00Z, on day 20458 since the epoch *)
Definition jan5_0800 : Z := 1767600000000.
(** 2026-01-04T08:00:00Z *)
Definition jan4_0800 : Z := 1767513600000.
(** 2026-02-05 is day 20489 since the epoch *)
Definition feb5_day : Z := 20489.

Definition metformina (takenToday : bool) : Medication.t :=
  Medication.mk "m1" "Metformina" "850 mg" "Horas fijas: 08:00, 20:00" ""
    takenToday None fixed (Some ["08:00"; "20:00"]) None.

Definition aspirina (takenToday : bool) : Medication.t :=
  Medication.mk "m2" "Aspirina" "100 mg" "Con comidas: Antes Almuerzo" ""
    takenToday (Some true) meal_relative None
    (Some [{| meal := lunch; timing := before |}]).

Definition doseOf (medName : string) (at_ : Z) : MedicationLog.t :=
  MedicationLog.mk (pretty at_) medName at_ (UTC.toLocaleString at_)
    (Some "Manual") taken.

Definition profileWith (meds : list Medication.t)
    (history : list MedicationLog.t) : UserProfile.t :=
  UserProfile.mk (Some "ana@example.org") "Ana" 54 female 162 68 light
    ["Diabetes Type 2"] [] [] [] "" meds history true None None.

(** Two medications, nothing recorded yet. *)
Definition fresh : UserProfile.t :=
  profileWith [metformina false; aspirina false] [].

(** Aspirina taken once today, which meets its target of one dose. *)
Definition aspirinaDone : UserProfile.t :=
  profileWith [metformina false; aspirina true]
              [doseOf "Aspirina" jan5_0800].

(** A new day: the flag of yesterday is still set and the ledger holds
    nothing dated today. *)
Definition staleFlag : UserProfile.t :=
  profileWith [metformina false; aspirina true]
              [doseOf "Aspirina" jan4_0800].

(** A medication whose name is also its id, taken yesterday. *)
Definition insulina : Medication.t :=
  Medication.mk "insulina" "insulina" "10 UI" "Horas fijas: 08:00" ""
    false None fixed (Some ["08:00"]) None.

Definition insulinaYesterday : UserProfile.t :=
  profileWith [insulina] [doseOf "insulina" jan4_0800].

(** One fixed time, not taken: the profile the reminder poll runs on. *)
Definition oneTime : UserProfile.t :=
  profileWith
    [Medication.mk "m1" "Metformina" "850 mg" "Horas fijas: 08:00" ""
       false None fixed (Some ["08:00"]) None] [].

(** Scenario F: two fixed times five minutes apart. *)
Definition fiveApart : UserProfile.t :=
  profileWith
    [Medication.mk "m1" "Metformina" "850 mg" "Horas fijas: 08:00, 08:05" ""
       false None fixed (Some ["08:00"; "08:05"]) None] [].

End Scenario.

(** ** The local write and its quota fallback ([saveProfile]) *)

(** How [localStorage.setItem] answers during one [saveProfile]: the first
    write is stored; or it throws a quota error and the write of the copy
    without images is stored or throws in its turn; or it throws another
    error, which is logged. *)
Inductive SetItem :=
  | Stored
  | QuotaExceeded (retryStored : bool)
  | OtherError.

(** [{ ...meal, imageUrl: undefined }], as [JSON.stringify] writes it *)
Definition stripImage (m : Meal.t) : Meal.t :=
  Meal.mk (Meal.name m) (Meal.description m) (Meal.ingredients m)
          (Meal.calories m) (Meal.glycemicIndex m) (Meal.suitableFor m) None.

(** The shallow copy with the heavy fields stripped *)
Definition lightProfile (profile : UserProfile.t) : UserProfile.t :=
  let mealPlan :=
    match UserProfile.mealPlan profile with
    | Some (m :: ms) => Some (map stripImage (m :: ms))
    | plan => plan
    end in
  UserProfile.mk
    (UserProfile.id profile) (UserProfile.name profile)
    (UserProfile.age profile) (UserProfile.gender profile)
    (UserProfile.height profile) (UserProfile.weight profile)
    (UserProfile.activityLevel profile) (UserProfile.diagnoses profile)
    (UserProfile.allowedFoods profile) (UserProfile.forbiddenFoods profile)
    (UserProfile.allergies profile) (UserProfile.goals profile)
    (UserProfile.medications profile) (UserProfile.history profile)
    (UserProfile.onboardingComplete profile) mealPlan
    (UserProfile.exerciseRoutine profile).

(** [{ ...profile, mealPlan: plan }] *)
Definition withMealPlan (plan : option (list Meal.t))
    (profile : UserProfile.t) : UserProfile.t :=
  UserProfile.mk
    (UserProfile.id profile) (UserProfile.name profile)
    (UserProfile.age profile) (UserProfile.gender profile)
    (UserProfile.height profile) (UserProfile.weight profile)
    (UserProfile.activityLevel profile) (UserProfile.diagnoses profile)
    (UserProfile.allowedFoods profile) (UserProfile.forbiddenFoods profile)
    (UserProfile.allergies profile) (UserProfile.goals profile)
    (UserProfile.medications profile) (UserProfile.history profile)
    (UserProfile.onboardingComplete profile) plan
    (UserProfile.exerciseRoutine profile).

(** The local half of [saveProfile] against a [localStorage] that answers
    [answer]: what is under [STORAGE_KEY] afterwards. *)
Definition saveProfileAnswered (answer : SetItem) (profile : UserProfile.t)
    (st : Store) : Store :=
  match answer with
  | Stored => Some profile
  | QuotaExceeded true => Some (lightProfile profile)
  | QuotaExceeded false => st
  | OtherError => st
  end.

(** ** Decidable equality of the enumerations *)

#[global] Instance ScheduleType_eq_dec : EqDecision ScheduleType.
Proof. solve_decision. Defined.

#[global] Instance MealTime_eq_dec : EqDecision MealTime.
Proof. solve_decision. Defined.

#[global] Instance MealTiming_eq_dec : EqDecision MealTiming.
Proof. solve_decision. Defined.

(** [xs.join(sep)] *)
Fixpoint join (sep : string) (xs : list string) : string :=
  match xs with
  | [] => ""
  | [x] => x
  | x :: rest => x ++ sep ++ join sep rest
  end.

(** ** Meal logging ([components/Dashboard.tsx]) *)

Module Dashboard.

(** What [handleLogMeal] does, in the order it does it: a notification or
    an alert box shown at once, a notification left to a timer, and the
    urgent reminder left to a timer that looks at the store again. *)
Inductive Effect :=
  | ShowNotification (title body : string)
  | ShowAlert (text : string)
  | NotifyLater (delayMs : Z) (title body : string)
  | UrgentCheckLater (delayMs : Z) (med : Medication.t) (body : string).

(** [t.meal === meal && t.timing === timing] *)
Definition triggerIs (logged : MealTime) (when : MealTiming)
    (t : MealTrigger) : Prop :=
  meal t = logged ∧ timing t = when.

#[global] Instance triggerIs_dec logged when t :
  Decision (triggerIs logged when t).
Proof. unfold triggerIs. apply _. Defined.

(** [!m.takenToday && m.scheduleType === 'meal_relative' &&
    m.mealTriggers?.some(...)]; an absent list gives [undefined]. *)
Definition dueAt (logged : MealTime) (when : MealTiming)
    (m : Medication.t) : Prop :=
  Medication.takenToday m = false ∧
  Medication.scheduleType m = meal_relative ∧
  match Medication.mealTriggers m with
  | Some triggers => Exists (triggerIs logged when) triggers
  | None => False
  end.

#[global] Instance dueAt_dec logged when m : Decision (dueAt logged when m).
Proof.
  unfold dueAt. destruct (Medication.mealTriggers m); apply _.
Defined.

Definition beforeMeds (profile : UserProfile.t) (logged : MealTime)
    : list Medication.t :=
  filter (dueAt logged before) (UserProfile.medications profile).

Definition afterMeds (profile : UserProfile.t) (logged : MealTime)
    : list Medication.t :=
  filter (dueAt logged after) (UserProfile.medications profile).

(** The meal as the template literal [${meal}] prints it *)
Definition mealTag (logged : MealTime) : string :=
  match logged with
  | breakfast => "breakfast"
  | lunch => "lunch"
  | dinner => "dinner"
  end.

Definition mealLower (logged : MealTime) : string :=
  match logged with
  | breakfast => "desayuno"
  | lunch => "almuerzo"
  | dinner => "cena"
  end.

Definition mealUpper (logged : MealTime) : string :=
  match logged with
  | breakfast => "Desayuno"
  | lunch => "Almuerzo"
  | dinner => "Cena"
  end.

Definition nl : string := String "010"%char EmptyString.

Definition names (meds : list Medication.t) : string :=
  join ", " (map Medication.name meds).

Definition handleLogMeal (granted : bool) (profile : UserProfile.t)
    (logged : MealTime) : list Effect :=
  (* 1. Check for "Before" meds (Immediate Alert) *)
  let beforeMeds := beforeMeds profile logged in
  let first :=
    match beforeMeds with
    | [] => []
    | _ :: _ =>
      ((if granted then
          ShowNotification ("🍽️ Medicamento Antes de " ++ mealTag logged)
                           ("Toma ahora: " ++ names beforeMeds)
          (* Schedule URGENT reminder if not taken in 30 mins *)
          :: map (λ med, UrgentCheckLater (30 * 60 * 1000) med
                   "Han pasado 30 min desde tu comida. ¡Tómalo ya!")
                 beforeMeds
        else []) ++
       [ShowAlert
          ("⚠️ ¡ATENCIÓN! Tienes medicamentos para tomar ANTES del " ++
           mealLower logged ++ ":" ++ nl ++ nl ++ names beforeMeds ++
           nl ++ nl ++ "Tómalos ahora.")])%list
    end in
  (* 2. Schedule "After" meds *)
  let afterMeds := afterMeds profile logged in
  let second :=
    match afterMeds with
    | [] =>
      match beforeMeds with
      | [] => [ShowAlert ("✅ " ++ mealUpper logged ++ " registrado.")]
      | _ :: _ => []
      end
    | _ :: _ =>
      if granted then
        (NotifyLater (15 * 60 * 1000) "💊 Medicamento Post-Comida"
           ("Ya han pasado 15 minutos de tu " ++ mealTag logged ++
            ". Es hora de tomar: " ++ names afterMeds)
         (* URGENT Reminder, 45 mins after meal *)
         :: map (λ med, UrgentCheckLater (45 * 60 * 1000) med
                  "Han pasado 45 min desde tu comida y no has marcado la toma.")
                afterMeds ++
         [ShowAlert ("✅ Comida registrada. Te recordaremos tomar " ++
                     names afterMeds ++ " en 15 minutos.")])%list
      else
        [ShowAlert ("✅ Comida registrada. Recuerda tomar en 15 minutos: " ++
                    names afterMeds)]
    end in
  (first ++ second)%list.

(** The timer body of an urgent reminder: it reads the store afresh and
    notifies when the medication is still there and not marked taken.
    The result is the notification shown, if any. *)
Definition urgentCheck (st : Store) (med : Medication.t) (body : string)
    : option (string * string) :=
  let freshProfile := getProfile st in
  match list_find (λ m, Medication.id m = Medication.id med)
                  (UserProfile.medications freshProfile) with
  | Some (_, currentMed) =>
    if Medication.takenToday currentMed then None
    else Some ("⚠️ URGENTE: " ++ Medication.name med, body)
  | None => None
  end.

End Dashboard.

(** ** The medication form ([components/MedicationManager.tsx]) *)

(** One record of what the prescription analysis returns, typed [any]:
    every field may be missing.  [suggestedMeals] is typed by the cast
    [mealName as MealTime] the code applies to its elements. *)
Module Suggestion.
Record t := mk {
  name : option string;
  dosage : option string;
  frequency : option string;
  instructions : option string;
  scheduleType : option string;
  suggestedTimes : option (list string);
  suggestedMeals : option (list MealTime);
  timing : option string
}.
End Suggestion.

(** The state of the form for a new medication *)
Module NewMed.
Record t := mk {
  name : string;
  dosage : string;
  instructions : string;
  scheduleType : ScheduleType;
  fixedTimes : list string;
  mealTriggers : list MealTrigger
}.
End NewMed.

Module MedicationManager.

(** [x || d] on a string that may be missing: the empty string is falsy. *)
Definition or_else (x : option string) (d : string) : string :=
  match x with
  | Some s => if decide (s = "") then d else s
  | None => d
  end.

(** [xs && xs.length > 0], giving the list when the test holds *)
Definition nonEmpty {A : Type} (xs : option (list A)) : option (list A) :=
  match xs with
  | Some (x :: rest) => Some (x :: rest)
  | _ => None
  end.

(** The body of [newMeds.map(m => ...)] in [addMedsToProfile]; [id] is the
    draw of [Math.random().toString(36).substr(2, 9)]. *)
Definition normalize (id : string) (m : Suggestion.t) : Medication.t :=
  let mealBranch :=
    if decide (Suggestion.scheduleType m = Some "meal_relative")
    then nonEmpty (Suggestion.suggestedMeals m) else None in
  match mealBranch with
  | Some meals =>
    let when :=
      if decide (Suggestion.timing m = Some "before") then before
      else after in
    let mealTriggers :=
      map (λ mealName, {| meal := mealName; timing := when |}) meals in
    Medication.mk id
      (or_else (Suggestion.name m) "Desconocido")
      (or_else (Suggestion.dosage m) "Según receta")
      (or_else (Suggestion.frequency m) "Con comidas")
      (or_else (Suggestion.instructions m) "")
      false (Some true) meal_relative None (Some mealTriggers)
  | None =>
    let fixedTimes :=
      match nonEmpty (Suggestion.suggestedTimes m) with
      | Some times => times
      | None => ["08:00"]
      end in
    Medication.mk id
      (or_else (Suggestion.name m) "Desconocido")
      (or_else (Suggestion.dosage m) "Según receta")
      (or_else (Suggestion.frequency m)
               ("Horas: " ++ join ", " fixedTimes))
      (or_else (Suggestion.instructions m) "")
      false (Some false) fixed (Some fixedTimes) None
  end.

(** [addMedsToProfile]: the profile saved and handed to [onUpdate];
    [ids i] is the id drawn for the [i]-th suggestion. *)
Definition addMedsToProfile (ids : nat → string)
    (newMeds : list Suggestion.t) (profile : UserProfile.t)
    : UserProfile.t :=
  let validMeds := imap (λ i m, normalize (ids i) m) newMeds in
  UserProfile.with_medications
    (UserProfile.medications profile ++ validMeds)%list profile.

Definition triggerText (t : MealTrigger) : string :=
  (match timing t with before => "Antes" | after => "Después" end) ++ " " ++
  (match meal t with
   | breakfast => "Desayuno"
   | lunch => "Almuerzo"
   | dinner => "Cena"
   end).

(** [handleManualAdd]: the profile saved, or nothing when the name is
    empty and the handler returns at once. *)
Definition handleManualAdd (id : string) (newMed : NewMed.t)
    (profile : UserProfile.t) : option UserProfile.t :=
  if decide (NewMed.name newMed = "") then None
  else
    let freqText :=
      match NewMed.scheduleType newMed with
      | fixed => "Horas fijas: " ++ join ", " (NewMed.fixedTimes newMed)
      | meal_relative =>
        "Con comidas: " ++
        join ", " (map triggerText (NewMed.mealTriggers newMed))
      end in
    let med :=
      Medication.mk id (NewMed.name newMed)
        (or_else (Some (NewMed.dosage newMed)) "Según indicación")
        freqText
        (or_else (Some (NewMed.instructions newMed)) "")
        false
        (Some (bool_decide (NewMed.scheduleType newMed = meal_relative)))
        (NewMed.scheduleType newMed)
        (match NewMed.scheduleType newMed with
         | fixed => Some (NewMed.fixedTimes newMed)
         | meal_relative => None
         end)
        (match NewMed.scheduleType newMed with
         | meal_relative => Some (NewMed.mealTriggers newMed)
         | fixed => None
         end) in
    Some (UserProfile.with_medications
            (UserProfile.medications profile ++ [med])%list profile).

(** [toggleMealTrigger] and [toggleEditMealTrigger]: the new trigger list *)
Definition toggleMealTrigger (triggers : list MealTrigger)
    (logged : MealTime) (when : MealTiming) : list MealTrigger :=
  match list_find (Dashboard.triggerIs logged when) triggers with
  | Some _ => filter (λ t, ¬ Dashboard.triggerIs logged when t) triggers
  | None => (triggers ++ [{| meal := logged; timing := when |}])%list
  end.

(** [startEditing]: the form opened on [med], with both schedule lists
    present *)
Definition startEditing (med : Medication.t) : string * Medication.t :=
  (Medication.id med,
   Medication.mk (Medication.id med) (Medication.name med)
     (Medication.dosage med) (Medication.frequency med)
     (Medication.instructions med) (Medication.takenToday med)
     (Medication.requiresFood med) (Medication.scheduleType med)
     (Some (default ["08:00"] (Medication.fixedTimes med)))
     (Some (default [] (Medication.mealTriggers med)))).

(** [saveEdit]: the profile saved, or nothing when no form is open *)
Definition saveEdit (editingId : option string)
    (editForm : option Medication.t) (profile : UserProfile.t)
    : option UserProfile.t :=
  match editForm with
  | None => None
  | Some editForm =>
    (* Update frequency text based on new settings *)
    let freqText :=
      match Medication.scheduleType editForm,
            Medication.fixedTimes editForm with
      | fixed, Some times => "Horas fijas: " ++ join ", " times
      | _, _ =>
        match Medication.scheduleType editForm,
              Medication.mealTriggers editForm with
        | meal_relative, Some triggers =>
          "Con comidas: " ++ pretty (length triggers) ++ " dosis"
        | _, _ => Medication.frequency editForm
        end
      end in
    let finalMed :=
      Medication.mk (Medication.id editForm) (Medication.name editForm)
        (Medication.dosage editForm) freqText
        (Medication.instructions editForm) (Medication.takenToday editForm)
        (Medication.requiresFood editForm) (Medication.scheduleType editForm)
        (Medication.fixedTimes editForm) (Medication.mealTriggers editForm) in
    let updatedMeds :=
      map (λ m, if decide (Some (Medication.id m) = editingId)
                then finalMed else m)
          (UserProfile.medications profile) in
    Some (UserProfile.with_medications updatedMeds profile)
  end.

(** The schedule of a medication is well formed: the list its type names
    is present and not empty, the other list is absent. *)
Definition wellScheduled (med : Medication.t) : Prop :=
  match Medication.scheduleType med with
  | fixed =>
    (∃ t times, Medication.fixedTimes med = Some (t :: times)) ∧
    Medication.mealTriggers med = None
  | meal_relative =>
    (∃ t triggers, Medication.mealTriggers med = Some (t :: triggers)) ∧
    Medication.fixedTimes med = None
  end.

End MedicationManager.

(** ** Vocabulary for the reminder poll *)

(** A reminder the poll may raise at [now] for this profile: it is for a
    medication of the profile that has a fixed schedule and is not marked
    taken, for one of its times, whose trigger window holds [now], and it
    is shown through the channel the permission selects. *)
Definition reminderDue `{Host} (profile : UserProfile.t) (granted : bool)
    (now : Z) (r : App.Reminder) : Prop :=
  App.med r ∈ UserProfile.medications profile ∧
  Medication.scheduleType (App.med r) = fixed ∧
  Medication.takenToday (App.med r) = false ∧
  (∃ times, Medication.fixedTimes (App.med r) = Some times ∧
            App.timeStr r ∈ times) ∧
  App.inWindow now (App.timeStr r) ∧
  App.alert r = App.primaryAlert granted (App.med r).

(** A time of day as [<input type="time">] writes it: two digits, a colon,
    two digits. *)
Definition hhmm (h m : Z) : string :=
  UTC.pad 2 h ++ ":" ++ UTC.pad 2 m.

(** ** The count of the specification *)

Section LedgerCount.
Context `{Host}.

(** Following the words of the specification for [countToday]: the number
    of entries whose [medName] matches and whose timestamp falls on the
    current calendar date, the dates being compared as dates. *)
Fixpoint entriesToday (now : Z) (medName : string)
    (history : list MedicationLog.t) : nat :=
  match history with
  | [] => 0
  | h :: rest =>
    (if decide (MedicationLog.medName h = medName ∧
                toDateString (MedicationLog.timestamp h) = toDateString now)
     then 1 else 0) + entriesToday now medName rest
  end.

(** [profile] with one more entry at the head of its ledger *)
Definition withEntry (h : MedicationLog.t) (profile : UserProfile.t)
    : UserProfile.t :=
  UserProfile.with_medications_history
    (UserProfile.medications profile) (h :: UserProfile.history profile)
    profile.

End LedgerCount.

(** ** More concrete inputs, on the UTC host *)

Module Cases.

(** The ledger still holds the dose of a medication deleted today. *)
Definition orphaned : UserProfile.t :=
  Scenario.profileWith [Scenario.metformina false]
    [Scenario.doseOf "Aspirina" Scenario.jan5_0800].

(** The form filled in to add it again. *)
Definition formAspirina : NewMed.t :=
  NewMed.mk "Aspirina" "100 mg" "" meal_relative ["08:00"]
            [{| meal := lunch; timing := before |}].


(** 2026-01-05T00:00:00.000Z and the millisecond before it,
    2026-01-04T23:59:59.999Z *)
Definition firstMsOfJan5 : Z := 1767571200000.
Definition lastMsOfJan4 : Z := 1767571199999.

(** Two doses of Aspirina one millisecond apart, on either side of the
    midnight that starts 5 January. *)
Definition aroundMidnight : UserProfile.t :=
  Scenario.profileWith [Scenario.metformina false; Scenario.aspirina true]
    [Scenario.doseOf "Aspirina" firstMsOfJan5;
     Scenario.doseOf "Aspirina" lastMsOfJan4].

(** Ten ticks of the interval installed one minute before 08:00. *)
Definition aroundEight : list Z :=
  App.intervalTicks (Scenario.jan5_0800 - 60000) 10.

End Cases.

(** * Properties *)

Local Open Scope list_scope.
Local Set Warnings "-clear-no-such-hyp".

Lemma or_one_max n : or_one n = Nat.max 1 n.
Proof. destruct n as [|[|n]]; simpl; lia. Qed.

Lemma getTargetDoses_pos med : 1 ≤ getTargetDoses med.
Proof.
  unfold getTargetDoses.
  destruct (Medication.scheduleType med), (Medication.fixedTimes med),
    (Medication.mealTriggers med); rewrite ?or_one_max; lia.
Qed.

(** C2. The target dose count of a [fixed] medication is
    [max 1 |fixedTimes|], that of a [meal_relative] medication is
    [max 1 |mealTriggers|], and in either case it is at least 1, also when
    the authoritative list is empty or absent. *)
Theorem getTargetDoses_spec (med : Medication.t) :
  getTargetDoses med =
    match Medication.scheduleType med with
    | fixed => Nat.max 1 (size_opt (Medication.fixedTimes med))
    | meal_relative => Nat.max 1 (size_opt (Medication.mealTriggers med))
    end
  ∧ 1 ≤ getTargetDoses med.
Proof.
  split; [|apply getTargetDoses_pos].
  unfold getTargetDoses, size_opt.
  destruct (Medication.scheduleType med), (Medication.fixedTimes med),
    (Medication.mealTriggers med); rewrite ?or_one_max; reflexivity.
Qed.

(** ** Resolving a medication id *)

Section Resolve.
Context {A : Type} (P : A → Prop) `{∀ x, Decision (P x)}.

Lemma list_find_lookup (l : list A) i x :
  list_find P l = Some (i, x) → l !! i = Some x ∧ P x.
Proof. intros Hf. apply list_find_Some in Hf. tauto. Qed.

(** Overwriting the element found by one that still satisfies the
    predicate does not move the first match. *)
Lemma list_find_insert_same (l : list A) i x y :
  list_find P l = Some (i, x) → P y →
  list_find P (<[i:=y]> l) = Some (i, y).
Proof.
  intros Hf Hy. apply list_find_Some in Hf as (Hi & _ & Hlt).
  apply list_find_Some. split_and!.
  - apply list_lookup_insert_eq. eapply lookup_lt_Some, Hi.
  - exact Hy.
  - intros j z Hj Hji. rewrite list_lookup_insert_ne in Hj by lia.
    eapply Hlt; eassumption.
Qed.

(** The first match splits the list: nothing before it matches. *)
Lemma list_find_split (l : list A) i x :
  list_find P l = Some (i, x) →
  ∃ l1 l2, l = l1 ++ x :: l2 ∧ length l1 = i ∧ Forall (λ y, ¬ P y) l1 ∧
           delete i l = l1 ++ l2.
Proof.
  intros Hf. apply list_find_Some in Hf as (Hi & _ & Hlt).
  exists (take i l), (drop (S i) l).
  assert (Hlen : i < length l) by (eapply lookup_lt_Some, Hi).
  split_and!.
  - rewrite <- (take_drop_middle l i x Hi) at 1. reflexivity.
  - rewrite length_take. lia.
  - apply Forall_lookup. intros j y Hj.
    apply lookup_take_Some in Hj as [Hj Hji]. eapply Hlt; eassumption.
  - apply delete_take_drop.
Qed.

Lemma filter_all (l : list A) : Forall P l → filter P l = l.
Proof.
  induction 1 as [|y l Hy _ IH]; [reflexivity|].
  rewrite filter_cons_True by exact Hy. f_equal. exact IH.
Qed.

Lemma filter_none (l : list A) : Forall (λ y, ¬ P y) l → filter P l = [].
Proof.
  induction 1 as [|y l Hy _ IH]; [reflexivity|].
  rewrite filter_cons_False by exact Hy. exact IH.
Qed.

Lemma list_find_None_filter (l : list A) :
  list_find P l = None → filter P l = [].
Proof.
  intros Hn. apply list_find_None in Hn. apply filter_none, Hn.
Qed.

End Resolve.

(** ** The dose recorder *)

Section Recorder.
Context `{Host}.


Lemma with_medications_same p :
  UserProfile.with_medications (UserProfile.medications p) p = p.
Proof. destruct p; reflexivity. Qed.

Lemma with_takenToday_same b med :
  Medication.same_but_takenToday (Medication.with_takenToday b med) med.
Proof. repeat split. Qed.


Lemma resolves_lookup st medId medIndex med :
  resolves st medId medIndex med →
  UserProfile.medications (getProfile st) !! medIndex = Some med ∧
  Medication.id med = medId.
Proof.
  unfold resolves. intros Hfind.
  exact (list_find_lookup (λ m, Medication.id m = medId) _ _ _ Hfind).
Qed.

Lemma countToday_cons_taken now h history medName :
  takenOn medName (toDateString now) h →
  countToday now (h :: history) medName = S (countToday now history medName).
Proof.
  intros Hh. unfold countToday. rewrite filter_cons_True by exact Hh.
  reflexivity.
Qed.

(** The entry written by [recordMedicationDose]. *)
Lemma recordMedicationDose_history now medId context st medIndex med :
  resolves st medId medIndex med →
  UserProfile.history (fst (recordMedicationDose now medId context st)) =
    MedicationLog.mk (pretty now) (Medication.name med) now
      (toLocaleString now) (Some (context_or_default context)) taken
    :: UserProfile.history (getProfile st).
Proof.
  unfold resolves, recordMedicationDose. intros ->. reflexivity.
Qed.

Lemma recordMedicationDose_medications now medId context st medIndex med :
  resolves st medId medIndex med →
  UserProfile.medications (fst (recordMedicationDose now medId context st)) =
    <[medIndex :=
        Medication.with_takenToday
          (bool_decide
             (getTargetDoses med ≤
              S (countToday now (UserProfile.history (getProfile st))
                            (Medication.name med))))
          med]>
      (UserProfile.medications (getProfile st)).
Proof.
  unfold resolves, recordMedicationDose, countToday. intros ->.
  cbv zeta.
  cbn [fst UserProfile.medications UserProfile.with_medications_history].
  rewrite filter_cons_True by (split; reflexivity). reflexivity.
Qed.

Lemma recordMedicationDose_store now medId context st medIndex med :
  resolves st medId medIndex med →
  snd (recordMedicationDose now medId context st) =
    Some (fst (recordMedicationDose now medId context st)).
Proof.
  unfold resolves, recordMedicationDose. intros ->. reflexivity.
Qed.

Lemma recordMedicationDose_same_frame now medId context st :
  UserProfile.same_frame
    (fst (recordMedicationDose now medId context st)) (getProfile st).
Proof.
  unfold recordMedicationDose.
  destruct (list_find _ _) as [[medIndex med]|]; repeat split.
Qed.

(** C10. [recordMedicationDose] on an id that resolves changes nothing but
    the head of the history, where the new entry is put, and the
    [takenToday] field of the medication resolved: the other medications,
    the other fields of that medication, the entries already in the ledger
    and the other fields of the profile are as before. *)
Theorem recordMedicationDose_frame now medId context st medIndex med :
  resolves st medId medIndex med →
  let profile := getProfile st in
  let newProfile := fst (recordMedicationDose now medId context st) in
  (∃ logEntry,
     UserProfile.history newProfile =
       logEntry :: UserProfile.history profile) ∧
  (∃ med',
     UserProfile.medications newProfile !! medIndex = Some med' ∧
     Medication.same_but_takenToday med' med) ∧
  length (UserProfile.medications newProfile) =
    length (UserProfile.medications profile) ∧
  (∀ j, j ≠ medIndex →
     UserProfile.medications newProfile !! j =
       UserProfile.medications profile !! j) ∧
  UserProfile.same_frame newProfile profile.
Proof.
  intros Hres profile newProfile. subst profile newProfile.
  pose proof (resolves_lookup _ _ _ _ Hres) as [Hi _].
  rewrite (recordMedicationDose_history _ _ _ _ _ _ Hres).
  rewrite (recordMedicationDose_medications _ _ _ _ _ _ Hres).
  split_and!.
  - eexists. reflexivity.
  - eexists. split.
    + apply list_lookup_insert_eq. eapply lookup_lt_Some, Hi.
    + apply with_takenToday_same.
  - apply length_insert.
  - intros j Hj. apply list_lookup_insert_ne. congruence.
  - apply recordMedicationDose_same_frame.
Qed.

(** C3. [recordMedicationDose] on an id that resolves puts exactly one
    entry at the head of the history, with status [taken], the current name
    of the medication, the context it was given (["Manual"] when none was)
    and the current instant; the length of the ledger and the count of
    today's doses under that name grow by exactly one, and the profile
    returned is the one written to the store.  This holds in every state of
    the store, whether or not the target of the day is met, and there is no
    cap: the id resolves as before on the store written, and a second
    record on it adds a second entry. *)
Theorem recordMedicationDose_appends now medId context st medIndex med :
  resolves st medId medIndex med →
  let profile := getProfile st in
  let recorded := recordMedicationDose now medId context st in
  let newProfile := fst recorded in
  (∃ logEntry,
     UserProfile.history newProfile =
       logEntry :: UserProfile.history profile ∧
     MedicationLog.status logEntry = taken ∧
     MedicationLog.medName logEntry = Medication.name med ∧
     MedicationLog.context logEntry =
       Some (match context with
             | Some given => given
             | None => "Manual"
             end) ∧
     MedicationLog.timestamp logEntry = now) ∧
  length (UserProfile.history newProfile) =
    S (length (UserProfile.history profile)) ∧
  countToday now (UserProfile.history newProfile) (Medication.name med) =
    S (countToday now (UserProfile.history profile) (Medication.name med)) ∧
  snd recorded = Some newProfile ∧
  (∃ med',
     resolves (snd recorded) medId medIndex med' ∧
     Medication.name med' = Medication.name med) ∧
  (let again := fst (recordMedicationDose now medId context (snd recorded)) in
   length (UserProfile.history again) =
     S (S (length (UserProfile.history profile))) ∧
   countToday now (UserProfile.history again) (Medication.name med) =
     S (S (countToday now (UserProfile.history profile)
                      (Medication.name med)))).
Proof.
  intros Hres profile recorded newProfile. subst profile recorded newProfile.
  assert (Hres1 :
    resolves (snd (recordMedicationDose now medId context st)) medId medIndex
      (Medication.with_takenToday
         (bool_decide
            (getTargetDoses med ≤
             S (countToday now (UserProfile.history (getProfile st))
                           (Medication.name med)))) med)).
  { rewrite (recordMedicationDose_store _ _ _ _ _ _ Hres).
    unfold resolves. cbn [getProfile].
    rewrite (recordMedicationDose_medications _ _ _ _ _ _ Hres).
    eapply list_find_insert_same; [exact Hres|].
    apply (resolves_lookup _ _ _ _ Hres). }
  assert (Hhist2 :
    UserProfile.history
      (getProfile (snd (recordMedicationDose now medId context st))) =
    UserProfile.history (fst (recordMedicationDose now medId context st))).
  { rewrite (recordMedicationDose_store _ _ _ _ _ _ Hres). reflexivity. }
  cbv zeta.
  rewrite (recordMedicationDose_history _ _ _ _ _ _ Hres1), Hhist2.
  rewrite (recordMedicationDose_history _ _ _ _ _ _ Hres).
  split_and!.
  - eexists. split_and!; reflexivity.
  - reflexivity.
  - apply countToday_cons_taken. split; reflexivity.
  - apply (recordMedicationDose_store _ _ _ _ _ _ Hres).
  - eexists. split; [exact Hres1 | reflexivity].
  - reflexivity.
  - cbn [Medication.name Medication.with_takenToday].
    rewrite !countToday_cons_taken by (split; reflexivity). reflexivity.
Qed.

(** C7. On an id that resolves to no medication, [recordMedicationDose],
    [removeLastMedicationDose] and [deleteMedication] return the stored
    profile as it is; the three are total functions, so nothing is raised,
    and the store reads as before afterwards. *)
Theorem unresolved_id_noop now medId context st :
  unresolved st medId →
  recordMedicationDose now medId context st = (getProfile st, st) ∧
  removeLastMedicationDose now medId st = (getProfile st, st) ∧
  fst (deleteMedication medId st) = getProfile st ∧
  getProfile (snd (deleteMedication medId st)) = getProfile st.
Proof.
  unfold unresolved. intros Hnone.
  assert (Hkeep : filter (λ m, Medication.id m ≠ medId)
                    (UserProfile.medications (getProfile st)) =
                  UserProfile.medications (getProfile st)).
  { apply filter_all. apply list_find_None in Hnone. exact Hnone. }
  unfold recordMedicationDose, removeLastMedicationDose, deleteMedication.
  rewrite Hnone. cbn [fst snd saveProfile getProfile].
  rewrite Hkeep, with_medications_same. auto.
Qed.

(** C8. [deleteMedication] on an id that resolves takes the medications
    carrying that id, and no other, out of the medication list, keeping the
    order of the rest; when ids are unique, as the data model has them,
    that is exactly the medication resolved.  The history, with the entries
    recorded under the name of the deleted medication, and every other
    field of the profile are as before. *)
Theorem deleteMedication_frame medId st medIndex med :
  resolves st medId medIndex med →
  let profile := getProfile st in
  let newProfile := fst (deleteMedication medId st) in
  UserProfile.history newProfile = UserProfile.history profile ∧
  UserProfile.same_frame newProfile profile ∧
  (med ∉ UserProfile.medications newProfile) ∧
  (∀ m, m ∈ UserProfile.medications newProfile ↔
        m ∈ UserProfile.medications profile ∧ Medication.id m ≠ medId) ∧
  (UserProfile.medications newProfile
     `sublist_of` UserProfile.medications profile) ∧
  (NoDup (Medication.id <$> UserProfile.medications profile) →
   ∃ l1 l2,
     UserProfile.medications profile = l1 ++ med :: l2 ∧
     UserProfile.medications newProfile = l1 ++ l2) ∧
  getProfile (snd (deleteMedication medId st)) = newProfile.
Proof.
  intros Hres profile newProfile. subst profile newProfile.
  pose proof (resolves_lookup _ _ _ _ Hres) as [Hi Hid].
  unfold deleteMedication. cbn [fst snd saveProfile getProfile].
  cbn [UserProfile.history UserProfile.medications
       UserProfile.with_medications].
  split_and!.
  - reflexivity.
  - repeat split.
  - rewrite list_elem_of_filter. tauto.
  - intros m. rewrite list_elem_of_filter. tauto.
  - apply sublist_filter.
  - intros Hnodup.
    destruct (list_find_split _ _ _ _ Hres) as (l1 & l2 & Heq & _ & Hl1 & _).
    exists l1, l2. split; [exact Heq|].
    rewrite Heq in Hnodup |- *.
    rewrite filter_app, filter_cons_False by tauto.
    rewrite (filter_all _ l1) by exact Hl1.
    f_equal. apply filter_all.
    rewrite fmap_app, fmap_cons in Hnodup.
    apply NoDup_app in Hnodup as (_ & _ & Hnodup).
    apply NoDup_cons in Hnodup as [Hnotin _].
    apply Forall_forall. intros m Hm Hmid. apply Hnotin.
    rewrite Hid, <- Hmid. apply list_elem_of_fmap_2. exact Hm.
  - reflexivity.
Qed.

(** *** Undoing the last dose *)

Lemma removeLastMedicationDose_unfold now medId st medIndex med :
  resolves st medId medIndex med →
  let history :=
    match list_find (takenOn (Medication.name med) (toDateString now))
                    (UserProfile.history (getProfile st)) with
    | Some (logIndexToRemove, _) =>
        delete logIndexToRemove (UserProfile.history (getProfile st))
    | None => UserProfile.history (getProfile st)
    end in
  removeLastMedicationDose now medId st =
    (let newProfile :=
       UserProfile.with_medications_history
         (<[medIndex :=
              Medication.with_takenToday
                (bool_decide (getTargetDoses med ≤
                              countToday now history (Medication.name med)))
                med]>
            (UserProfile.medications (getProfile st)))
         history (getProfile st) in
     (newProfile, Some newProfile)).
Proof.
  unfold resolves, removeLastMedicationDose. intros ->. reflexivity.
Qed.

Lemma removeLastMedicationDose_same_frame now medId st :
  UserProfile.same_frame
    (fst (removeLastMedicationDose now medId st)) (getProfile st).
Proof.
  unfold removeLastMedicationDose.
  destruct (list_find _ _) as [[medIndex med]|]; repeat split.
Qed.

(** C4, as the code has it.  On an id that resolves: when the ledger holds
    an entry under the name of the medication dated today,
    [removeLastMedicationDose] takes out the first such entry from the head
    of the history, which is the one added last, and nothing else; entries
    of other days or under other names are never touched.  When there is no
    such entry the ledger is as before, and the profile changes in one
    place at most: the [takenToday] of the medication resolved is
    recomputed, to [false]. *)
Theorem removeLastMedicationDose_spec now medId st medIndex med :
  resolves st medId medIndex med →
  let profile := getProfile st in
  let newProfile := fst (removeLastMedicationDose now medId st) in
  let today := takenOn (Medication.name med) (toDateString now) in
  ((∃ h, h ∈ UserProfile.history profile ∧ today h) →
   ∃ l1 h l2,
     UserProfile.history profile = l1 ++ h :: l2 ∧ today h ∧
     Forall (λ h', ¬ today h') l1 ∧
     UserProfile.history newProfile = l1 ++ l2) ∧
  ((∀ h, h ∈ UserProfile.history profile → ¬ today h) →
   UserProfile.history newProfile = UserProfile.history profile ∧
   UserProfile.medications newProfile =
     <[medIndex := Medication.with_takenToday false med]>
       (UserProfile.medications profile)) ∧
  filter (λ h, ¬ today h) (UserProfile.history newProfile) =
    filter (λ h, ¬ today h) (UserProfile.history profile) ∧
  (∀ j, j ≠ medIndex →
     UserProfile.medications newProfile !! j =
       UserProfile.medications profile !! j) ∧
  UserProfile.same_frame newProfile profile.
Proof.
  intros Hres profile newProfile today. subst profile newProfile.
  pose proof (removeLastMedicationDose_same_frame now medId st) as Hframe.
  rewrite (removeLastMedicationDose_unfold now _ _ _ _ Hres) in *.
  cbv zeta. cbn [fst UserProfile.history UserProfile.medications
                 UserProfile.with_medications_history].
  fold today.
  destruct (list_find today (UserProfile.history (getProfile st)))
    as [[i h]|] eqn:Hfind.
  - destruct (list_find_split _ _ _ _ Hfind) as (l1 & l2 & Heq & _ & Hl1 & Hdel).
    pose proof (list_find_lookup _ _ _ _ Hfind) as [_ Hh].
    split_and!.
    + intros _. exists l1, h, l2. rewrite Hdel. auto.
    + intros Hno. exfalso. apply (Hno h); [|exact Hh].
      rewrite Heq. apply elem_of_app. right. apply list_elem_of_here.
    + rewrite Hdel, Heq. rewrite !filter_app.
      rewrite filter_cons_False by tauto. reflexivity.
    + intros j Hj. apply list_lookup_insert_ne. congruence.
    + exact Hframe.
  - split_and!.
    + intros (h & Hin & Hh). exfalso.
      apply list_find_None in Hfind.
      rewrite Forall_forall in Hfind. exact (Hfind h Hin Hh).
    + intros _. split; [reflexivity|].
      unfold countToday. fold today.
      rewrite (list_find_None_filter _ _ Hfind). cbn [length].
      rewrite bool_decide_eq_false_2; [reflexivity|].
      pose proof (getTargetDoses_pos med). lia.
    + reflexivity.
    + intros j Hj. apply list_lookup_insert_ne. congruence.
    + exact Hframe.
Qed.

(** *** The [takenToday] cache *)

Lemma isCompleted_eq now profile med :
  isCompleted now profile med =
    bool_decide (getTargetDoses med ≤
                 countToday now (UserProfile.history profile)
                            (Medication.name med)).
Proof. reflexivity. Qed.

Lemma cacheAgrees_iff now profile med :
  cacheAgrees now profile med ↔
  Medication.takenToday med = isCompleted now profile med.
Proof.
  unfold cacheAgrees. rewrite isCompleted_eq.
  destruct (Medication.takenToday med); split.
  - intros [Hto _]. symmetry. apply bool_decide_eq_true, Hto. reflexivity.
  - intros Heq. symmetry in Heq. apply bool_decide_eq_true in Heq. tauto.
  - intros [_ Hfrom]. symmetry. apply bool_decide_eq_false.
    intros Hle. specialize (Hfrom Hle). discriminate.
  - intros Heq. symmetry in Heq. apply bool_decide_eq_false in Heq.
    split; [discriminate | tauto].
Qed.

Lemma countToday_same_day now1 now2 history medName :
  toDateString now2 = toDateString now1 →
  countToday now2 history medName = countToday now1 history medName.
Proof. unfold countToday. intros ->. reflexivity. Qed.

(** C1, as the code has it.  After [recordMedicationDose] and after
    [removeLastMedicationDose] on an id that resolves, the [takenToday] of
    the medication resolved is true exactly when the resulting ledger holds
    at least its target number of entries under its name dated today; the
    other medications are not recomputed, they stay as they were.  After
    [resetDailyTracking] every [takenToday] is false and the ledger is as
    before, whatever it holds. *)
Theorem takenToday_recomputed now medId context st medIndex med :
  resolves st medId medIndex med →
  (let newProfile := fst (recordMedicationDose now medId context st) in
   (∃ med', UserProfile.medications newProfile !! medIndex = Some med' ∧
            cacheAgrees now newProfile med') ∧
   (∀ j, j ≠ medIndex →
      UserProfile.medications newProfile !! j =
        UserProfile.medications (getProfile st) !! j)) ∧
  (let newProfile := fst (removeLastMedicationDose now medId st) in
   (∃ med', UserProfile.medications newProfile !! medIndex = Some med' ∧
            cacheAgrees now newProfile med') ∧
   (∀ j, j ≠ medIndex →
      UserProfile.medications newProfile !! j =
        UserProfile.medications (getProfile st) !! j)) ∧
  (let newProfile := fst (resetDailyTracking st) in
   Forall (λ m, Medication.takenToday m = false)
          (UserProfile.medications newProfile) ∧
   UserProfile.history newProfile = UserProfile.history (getProfile st)).
Proof.
  intros Hres.
  pose proof (resolves_lookup _ _ _ _ Hres) as [Hi _].
  apply lookup_lt_Some in Hi.
  split_and!.
  - cbv zeta. split.
    + eexists. split.
      * rewrite (recordMedicationDose_medications _ _ _ _ _ _ Hres).
        apply list_lookup_insert_eq, Hi.
      * apply cacheAgrees_iff. rewrite isCompleted_eq.
        rewrite (recordMedicationDose_history _ _ _ _ _ _ Hres).
        cbn [Medication.takenToday Medication.with_takenToday
             Medication.name].
        rewrite countToday_cons_taken by (split; reflexivity).
        reflexivity.
    + intros j Hj.
      rewrite (recordMedicationDose_medications _ _ _ _ _ _ Hres).
      apply list_lookup_insert_ne. congruence.
  - cbv zeta. rewrite (removeLastMedicationDose_unfold now _ _ _ _ Hres).
    cbv zeta. cbn [fst UserProfile.medications
                   UserProfile.with_medications_history].
    split.
    + eexists. split; [apply list_lookup_insert_eq, Hi|].
      apply cacheAgrees_iff. reflexivity.
    + intros j Hj. apply list_lookup_insert_ne. congruence.
  - cbv zeta. unfold resetDailyTracking. cbn [fst]. split; [|reflexivity].
    cbn [UserProfile.medications UserProfile.with_medications].
    apply Forall_forall. intros m Hm.
    apply list_elem_of_fmap in Hm as (m' & -> & _). reflexivity.
Qed.


End Recorder.

(** ** The count of today's doses *)

Section Count.
Context `{Host}.

(** The count used by the recorder, the undo and the progress display
    looks at the name and at the calendar date of an entry, and at nothing
    else: an entry under the given name dated today counts for one, any
    other entry for nothing. *)
Lemma countToday_cons now h history medName :
  countToday now (h :: history) medName =
    (if decide (MedicationLog.medName h = medName ∧
                toDateString (MedicationLog.timestamp h) = toDateString now)
     then 1 else 0) + countToday now history medName.
Proof.
  unfold countToday. rewrite filter_cons. unfold takenOn.
  destruct (decide _); reflexivity.
Qed.

Lemma countToday_other_day now h history medName :
  toDateString (MedicationLog.timestamp h) ≠ toDateString now →
  countToday now (h :: history) medName = countToday now history medName.
Proof.
  intros Hday. rewrite countToday_cons.
  destruct (decide _) as [[_ Heq]|_]; [contradiction | reflexivity].
Qed.

Lemma countToday_other_name now h history medName :
  MedicationLog.medName h ≠ medName →
  countToday now (h :: history) medName = countToday now history medName.
Proof.
  intros Hname. rewrite countToday_cons.
  destruct (decide _) as [[Heq _]|_]; [contradiction | reflexivity].
Qed.

End Count.

(** ** The reminder poll: de-duplication within a session *)

Section Continues.
Context {E : Type} (keyOf : E → string).

Lemma continues_refl (Q : E → Prop) acc : App.continues keyOf Q acc acc.
Proof.
  exists []. split_and!.
  - symmetry. apply app_nil_r.
  - constructor.
  - constructor.
  - intros e He. inversion He.
  - cbn. set_solver.
Qed.

Lemma continues_trans (Q : E → Prop) acc1 acc2 acc3 :
  App.continues keyOf Q acc1 acc2 → App.continues keyOf Q acc2 acc3 →
  App.continues keyOf Q acc1 acc3.
Proof.
  intros (new1 & Hlog1 & HQ1 & Hnd1 & Hfresh1 & Hsent1)
         (new2 & Hlog2 & HQ2 & Hnd2 & Hfresh2 & Hsent2).
  exists (new1 ++ new2). split_and!.
  - rewrite Hlog2, Hlog1. symmetry. apply app_assoc.
  - apply Forall_app. split; assumption.
  - rewrite fmap_app. apply NoDup_app. split_and!; [exact Hnd1| |exact Hnd2].
    intros k Hk1 Hk2. apply list_elem_of_fmap in Hk2 as (e & -> & He).
    apply (Hfresh2 e He). rewrite Hsent1. set_solver.
  - intros e He. apply elem_of_app in He as [He|He]; [auto|].
    specialize (Hfresh2 e He). rewrite Hsent1 in Hfresh2. set_solver.
  - rewrite Hsent2, Hsent1, fmap_app. set_solver.
Qed.

Lemma continues_foldl {X : Type} (Q : E → Prop)
    (f : list E * gset string → X → list E * gset string) xs :
  (∀ acc x, App.continues keyOf Q acc (f acc x)) →
  ∀ acc, App.continues keyOf Q acc (foldl f acc xs).
Proof.
  intros Hf. induction xs as [|x xs IH]; intros acc; cbn [foldl].
  - apply continues_refl.
  - eapply continues_trans; [apply Hf | apply IH].
Qed.

End Continues.

Section PollProperties.
Context `{Host}.

(** What one reminder emitted at [now] satisfies. *)
Lemma checkTime_continues granted now med acc timeStr :
  App.continues App.key
    (λ r, App.key r = App.notifKey (App.med r) (App.timeStr r) now)
    acc (App.checkTime granted now med acc timeStr).
Proof.
  unfold App.checkTime. destruct acc as [emitted sent].
  destruct (App.getMinutes timeStr) as [scheduledMinutes|];
    [|apply continues_refl].
  cbv zeta.
  destruct (_ && _)%bool; [|apply continues_refl].
  destruct (bool_decide _) eqn:Hsent; [apply continues_refl|].
  apply bool_decide_eq_false in Hsent.
  eexists [_]. cbn [fst snd]. split_and!.
  - reflexivity.
  - repeat constructor.
  - cbn. apply NoDup_singleton.
  - intros e He. apply list_elem_of_singleton in He as ->. exact Hsent.
  - cbn. set_solver.
Qed.

Lemma checkMedication_continues granted now acc med :
  App.continues App.key
    (λ r, App.key r = App.notifKey (App.med r) (App.timeStr r) now)
    acc (App.checkMedication granted now acc med).
Proof.
  unfold App.checkMedication.
  destruct (Medication.scheduleType med), (Medication.fixedTimes med),
    (Medication.takenToday med); try apply continues_refl.
  apply continues_foldl. intros acc' timeStr. apply checkTime_continues.
Qed.

Lemma checkMedications_continues profile granted now sent :
  App.continues App.key
    (λ r, App.key r = App.notifKey (App.med r) (App.timeStr r) now)
    ([], sent) (App.checkMedications profile granted now sent).
Proof.
  unfold App.checkMedications. apply continues_foldl.
  intros acc med. apply checkMedication_continues.
Qed.

Lemma pollTick_continues profile granted acc now :
  App.continues (λ e, App.key (snd e)) App.keyedAt
    acc (App.pollTick profile granted acc now).
Proof.
  unfold App.pollTick.
  destruct profile as [p|]; [|apply continues_refl].
  destruct (UserProfile.onboardingComplete p); [|apply continues_refl].
  pose proof (checkMedications_continues p granted now (snd acc))
    as (new & Hlog & HQ & Hnd & Hfresh & Hsent).
  destruct (App.checkMedications p granted now (snd acc)) as [emitted sent].
  cbn [fst snd] in *. rewrite app_nil_l in Hlog. subst emitted.
  assert (Hkeys : (λ e : Z * App.Reminder, App.key (snd e))
                    <$> map (pair now) new = App.key <$> new).
  { rewrite <- list_fmap_compose. reflexivity. }
  exists (map (pair now) new). split_and!.
  - reflexivity.
  - apply Forall_fmap. eapply Forall_impl; [exact HQ|].
    intros r Hr. exact Hr.
  - rewrite Hkeys. exact Hnd.
  - intros e He. apply list_elem_of_fmap in He as (r & -> & Hr).
    apply Hfresh, Hr.
  - rewrite Hkeys. exact Hsent.
Qed.

(** Within one session no key is sent twice: the reminders of the log
    carry pairwise distinct keys, none of which was in the set the session
    started from, and each carries the key computed at its tick. *)
Lemma poll_dedup profile granted ticks sent :
  let log := fst (App.poll profile granted ticks sent) in
  NoDup ((λ e, App.key (snd e)) <$> log) ∧
  (∀ e, e ∈ log → App.key (snd e) ∉ sent) ∧
  Forall App.keyedAt log.
Proof.
  cbv zeta. unfold App.poll.
  pose proof (continues_foldl (λ e : Z * App.Reminder, App.key (snd e))
                App.keyedAt (App.pollTick profile granted) ticks
                (pollTick_continues profile granted) ([], sent))
    as (new & Hlog & HQ & Hnd & Hfresh & _).
  cbn [fst snd] in Hlog, Hfresh. rewrite app_nil_l in Hlog.
  rewrite Hlog. auto.
Qed.

Lemma continues_sent_mono {E : Type} (keyOf : E → string) Q acc acc' :
  App.continues keyOf Q acc acc' → snd acc ⊆ snd acc'.
Proof. intros (new & _ & _ & _ & _ & ->). set_solver. Qed.

Lemma checkTime_sends granted now med acc timeStr :
  App.inWindow now timeStr →
  App.notifKey med timeStr now ∈
    snd (App.checkTime granted now med acc timeStr).
Proof.
  intros (scheduledMinutes & Hmin & Hlo & Hhi).
  unfold App.checkTime. destruct acc as [emitted sent]. rewrite Hmin.
  cbv zeta.
  replace ((0 <=? _) && (_ <=? 2))%Z with true
    by (symmetry; apply andb_true_intro; split; apply Z.leb_le; assumption).
  destruct (bool_decide _) eqn:Hsent.
  - apply bool_decide_eq_true in Hsent. exact Hsent.
  - cbn [snd]. set_solver.
Qed.

Lemma checkTimes_send granted now med times acc timeStr :
  timeStr ∈ times → App.inWindow now timeStr →
  App.notifKey med timeStr now ∈
    snd (foldl (App.checkTime granted now med) acc times).
Proof.
  intros Hin Hwin. revert acc.
  induction times as [|t times IH]; intros acc; [inversion Hin|].
  cbn [foldl]. apply elem_of_cons in Hin as [<-|Hin].
  - eapply continues_sent_mono.
    + apply (continues_foldl App.key _ (App.checkTime granted now med)).
      intros acc' t'. apply checkTime_continues.
    + apply checkTime_sends, Hwin.
  - apply IH, Hin.
Qed.

Lemma checkMedications_send profile granted now sent med times timeStr :
  med ∈ UserProfile.medications profile →
  Medication.scheduleType med = fixed →
  Medication.fixedTimes med = Some times →
  Medication.takenToday med = false →
  timeStr ∈ times → App.inWindow now timeStr →
  App.notifKey med timeStr now ∈
    snd (App.checkMedications profile granted now sent).
Proof.
  intros Hmed Hfixed Htimes Hpending Hin Hwin.
  unfold App.checkMedications. generalize ([] : list App.Reminder, sent).
  induction (UserProfile.medications profile) as [|m meds IH]; intros acc;
    [inversion Hmed|].
  cbn [foldl]. apply elem_of_cons in Hmed as [<-|Hmed].
  - eapply continues_sent_mono.
    + apply (continues_foldl App.key _ (App.checkMedication granted now)).
      intros acc' m'. apply checkMedication_continues.
    + unfold App.checkMedication. rewrite Hfixed, Htimes, Hpending.
      apply checkTimes_send; assumption.
  - apply IH, Hmed.
Qed.

Lemma count_key_once {E : Type} (keyOf : E → string) (k : string)
    (l : list E) :
  NoDup (keyOf <$> l) → k ∈ keyOf <$> l →
  length (filter (λ e, keyOf e = k) l) = 1.
Proof.
  induction l as [|e l IH]; intros Hnd Hin; [inversion Hin|].
  rewrite fmap_cons in Hnd, Hin. apply NoDup_cons in Hnd as [Hnotin Hnd].
  destruct (decide (keyOf e = k)) as [Heq|Hne].
  - rewrite filter_cons_True by exact Heq.
    rewrite filter_none; [reflexivity|].
    apply Forall_forall. intros e' He' Heq'. apply Hnotin.
    rewrite Heq, <- Heq'. apply list_elem_of_fmap_2, He'.
  - rewrite filter_cons_False by exact Hne.
    apply IH; [exact Hnd|].
    apply elem_of_cons in Hin as [Hin|Hin]; [congruence | exact Hin].
Qed.

(** Exactly once in a session.  For a pending fixed-schedule medication
    and one of its times, if some tick of the session falls in the trigger
    window and the key computed at that tick was not in the set the session
    started from, the log of the session holds exactly one reminder under
    that key, however many ticks fall in the window. *)
Lemma primary_reminder_once profile granted ticks sent med times timeStr
    now :
  UserProfile.onboardingComplete profile = true →
  med ∈ UserProfile.medications profile →
  Medication.scheduleType med = fixed →
  Medication.fixedTimes med = Some times →
  Medication.takenToday med = false →
  timeStr ∈ times →
  now ∈ ticks → App.inWindow now timeStr →
  App.notifKey med timeStr now ∉ sent →
  length (filter (λ e, App.key (snd e) = App.notifKey med timeStr now)
                 (fst (App.poll (Some profile) granted ticks sent))) = 1.
Proof.
  intros Hon Hmed Hfixed Htimes Hpending Hin Htick Hwin Hfresh.
  set (k := App.notifKey med timeStr now).
  assert (Hstep : ∀ acc t, App.continues (λ e, App.key (snd e)) App.keyedAt
                             acc (App.pollTick (Some profile) granted acc t))
    by (intros; apply pollTick_continues).
  assert (Hsent : k ∈ snd (App.poll (Some profile) granted ticks sent)).
  { unfold App.poll. generalize ([] : list (Z * App.Reminder), sent).
    induction ticks as [|t ticks IH]; intros acc; [inversion Htick|].
    cbn [foldl]. apply elem_of_cons in Htick as [<-|Htick].
    - eapply continues_sent_mono; [apply continues_foldl, Hstep|].
      unfold App.pollTick. rewrite Hon.
      pose proof (checkMedications_send profile granted now (snd acc) med
                    times timeStr Hmed Hfixed Htimes Hpending Hin Hwin)
        as Hk.
      destruct (App.checkMedications profile granted now (snd acc)).
      exact Hk.
    - apply IH, Htick. }
  unfold App.poll in *.
  pose proof (continues_foldl (λ e : Z * App.Reminder, App.key (snd e))
                App.keyedAt (App.pollTick (Some profile) granted) ticks
                Hstep ([], sent))
    as (new & Hlog & _ & Hnd & _ & Hfinal).
  cbn [fst snd] in Hlog, Hfinal. rewrite app_nil_l in Hlog.
  rewrite Hlog. apply count_key_once; [exact Hnd|].
  rewrite Hfinal in Hsent. set_solver.
Qed.

End PollProperties.

(** ** The recorder on the concrete profiles *)

Section OnUTC.
Import Scenario.
#[local] Existing Instance UTC.host.

Example scenario_A :
  let one := recordMedicationDose jan5_0800 "m1" None (Some fresh) in
  let two := recordMedicationDose jan5_0800 "m1" None (snd one) in
  getDoseProgress jan5_0800 (fst one) (metformina false) = (1, 2) ∧
  isCompleted jan5_0800 (fst one) (metformina false) = false ∧
  getDoseProgress jan5_0800 (fst two) (metformina false) = (2, 2) ∧
  isCompleted jan5_0800 (fst two) (metformina false) = true ∧
  UserProfile.medications (fst two) = [metformina true; aspirina false].
Proof. cbv zeta. split_and!; reflexivity. Qed.

Example scenario_B :
  getDoseProgress jan5_0800 fresh (aspirina false) = (0, 1) ∧
  isCompleted jan5_0800 fresh (aspirina false) = false ∧
  isCompleted jan5_0800
    (fst (recordMedicationDose jan5_0800 "m2" None (Some fresh)))
    (aspirina false) = true.
Proof. split_and!; reflexivity. Qed.

Lemma recordMedicationDose_frame_witness :
  resolves (Some fresh) "m2" 1 (aspirina false) ∧
  let profile := getProfile (Some fresh) in
  let newProfile :=
    fst (recordMedicationDose jan5_0800 "m2" None (Some fresh)) in
  (∃ logEntry,
     UserProfile.history newProfile =
       logEntry :: UserProfile.history profile) ∧
  (∃ med',
     UserProfile.medications newProfile !! 1 = Some med' ∧
     Medication.same_but_takenToday med' (aspirina false)) ∧
  length (UserProfile.medications newProfile) =
    length (UserProfile.medications profile) ∧
  (∀ j, j ≠ 1 →
     UserProfile.medications newProfile !! j =
       UserProfile.medications profile !! j) ∧
  UserProfile.same_frame newProfile profile.
Proof.
  split; [reflexivity|].
  apply (recordMedicationDose_frame jan5_0800 "m2" None (Some fresh) 1
           (aspirina false)).
  reflexivity.
Defined.

Lemma recordMedicationDose_appends_witness :
  resolves (Some aspirinaDone) "m2" 1 (aspirina true) ∧
  (∃ logEntry,
     UserProfile.history
       (fst (recordMedicationDose jan5_0800 "m2" (Some "Before Lunch")
               (Some aspirinaDone))) =
       logEntry :: UserProfile.history aspirinaDone ∧
     MedicationLog.context logEntry = Some "Before Lunch") ∧
  countToday jan5_0800
    (UserProfile.history
       (fst (recordMedicationDose jan5_0800 "m2" (Some "Before Lunch")
               (Some aspirinaDone))))
    "Aspirina" = 2 ∧
  length
    (UserProfile.history
       (fst (recordMedicationDose jan5_0800 "m2" (Some "Before Lunch")
               (Some aspirinaDone)))) = 2 ∧
  snd (recordMedicationDose jan5_0800 "m2" (Some "Before Lunch")
         (Some aspirinaDone)) =
    Some (fst (recordMedicationDose jan5_0800 "m2" (Some "Before Lunch")
                 (Some aspirinaDone))).
Proof.
  assert (Hres : resolves (Some aspirinaDone) "m2" 1 (aspirina true))
    by reflexivity.
  split; [exact Hres|].
  destruct (recordMedicationDose_appends jan5_0800 "m2"
              (Some "Before Lunch") (Some aspirinaDone) 1 (aspirina true)
              Hres)
    as ((logEntry & Hhead & _ & _ & Hcontext & _) & Hlen & Hcount & Hstore
        & _).
  split_and!.
  - exists logEntry. split; [exact Hhead | exact Hcontext].
  - exact Hcount.
  - exact Hlen.
  - exact Hstore.
Defined.

Lemma unresolved_id_noop_witness :
  unresolved (Some fresh) "m9" ∧
  recordMedicationDose jan5_0800 "m9" None (Some fresh) =
    (fresh, Some fresh) ∧
  removeLastMedicationDose jan5_0800 "m9" (Some fresh) =
    (fresh, Some fresh) ∧
  fst (deleteMedication "m9" (Some fresh)) = fresh ∧
  getProfile (snd (deleteMedication "m9" (Some fresh))) = fresh.
Proof.
  split; [reflexivity|].
  apply (unresolved_id_noop jan5_0800 "m9" None (Some fresh)).
  reflexivity.
Defined.

Lemma deleteMedication_frame_witness :
  resolves (Some aspirinaDone) "m2" 1 (aspirina true) ∧
  NoDup (Medication.id <$> UserProfile.medications aspirinaDone) ∧
  UserProfile.history (fst (deleteMedication "m2" (Some aspirinaDone))) =
    [doseOf "Aspirina" jan5_0800] ∧
  ∃ l1 l2,
    UserProfile.medications aspirinaDone = l1 ++ aspirina true :: l2 ∧
    UserProfile.medications (fst (deleteMedication "m2" (Some aspirinaDone)))
      = l1 ++ l2.
Proof.
  assert (Hres : resolves (Some aspirinaDone) "m2" 1 (aspirina true))
    by reflexivity.
  assert (Hnodup :
    NoDup (Medication.id <$> UserProfile.medications aspirinaDone)).
  { apply (bool_decide_unpack _). reflexivity. }
  split; [exact Hres|]. split; [exact Hnodup|].
  destruct (deleteMedication_frame "m2" (Some aspirinaDone) 1
              (aspirina true) Hres)
    as (Hhist & _ & _ & _ & _ & Hexact & _).
  split; [exact Hhist | exact (Hexact Hnodup)].
Defined.

(** C1 as stated fails: after [resetDailyTracking] the flag of a
    medication whose target is met by today's ledger is false. *)
Lemma cache_after_reset_counterexample :
  cacheConsistent jan5_0800 aspirinaDone ∧
  ¬ cacheConsistent jan5_0800 (fst (resetDailyTracking (Some aspirinaDone))).
Proof.
  split.
  - repeat constructor; cbn; try discriminate; vm_compute; lia.
  - intros Hall.
    apply Forall_cons in Hall as [_ Hall].
    apply Forall_cons in Hall as [[_ Hfrom] _].
    assert (Hmet :
      getTargetDoses (Medication.with_takenToday false (aspirina true)) ≤
      countToday jan5_0800
        (UserProfile.history (fst (resetDailyTracking (Some aspirinaDone))))
        (Medication.name (Medication.with_takenToday false (aspirina true))))
      by (vm_compute; lia).
    specialize (Hfrom Hmet). discriminate.
Qed.

Lemma takenToday_recomputed_witness :
  resolves (Some aspirinaDone) "m2" 1 (aspirina true) ∧
  (∃ med',
     UserProfile.medications
       (fst (removeLastMedicationDose jan5_0800 "m2" (Some aspirinaDone)))
       !! 1 = Some med' ∧
     cacheAgrees jan5_0800
       (fst (removeLastMedicationDose jan5_0800 "m2" (Some aspirinaDone)))
       med') ∧
  Forall (λ m, Medication.takenToday m = false)
    (UserProfile.medications (fst (resetDailyTracking (Some aspirinaDone)))).
Proof.
  assert (Hres : resolves (Some aspirinaDone) "m2" 1 (aspirina true))
    by reflexivity.
  split; [exact Hres|].
  destruct (takenToday_recomputed jan5_0800 "m2" None (Some aspirinaDone) 1
              (aspirina true) Hres)
    as (_ & [Hundo _] & [Hreset _]).
  split; [exact Hundo | exact Hreset].
Defined.

(** C4 as stated fails in its second half: with no entry dated today under
    the name of the medication, [removeLastMedicationDose] still rewrites
    its [takenToday], so the profile returned is not the one stored. *)
Lemma undo_without_today_entry_counterexample :
  resolves (Some staleFlag) "m2" 1 (aspirina true) ∧
  (∀ h, h ∈ UserProfile.history staleFlag →
        ¬ takenOn "Aspirina" (toDateString jan5_0800) h) ∧
  fst (removeLastMedicationDose jan5_0800 "m2" (Some staleFlag)) ≠ staleFlag.
Proof.
  split_and!.
  - reflexivity.
  - intros h Hin [_ Hday]. apply list_elem_of_singleton in Hin as ->.
    vm_compute in Hday. discriminate.
  - intros Heq. apply (f_equal UserProfile.medications) in Heq.
    vm_compute in Heq. discriminate.
Qed.

Lemma removeLastMedicationDose_spec_witness :
  resolves (Some aspirinaDone) "m2" 1 (aspirina true) ∧
  (∃ h, h ∈ UserProfile.history aspirinaDone ∧
        takenOn "Aspirina" (toDateString jan5_0800) h) ∧
  (∃ l1 h l2,
     UserProfile.history aspirinaDone = l1 ++ h :: l2 ∧
     takenOn "Aspirina" (toDateString jan5_0800) h ∧
     Forall (λ h', ¬ takenOn "Aspirina" (toDateString jan5_0800) h') l1 ∧
     UserProfile.history
       (fst (removeLastMedicationDose jan5_0800 "m2" (Some aspirinaDone)))
       = l1 ++ l2) ∧
  (∀ h, h ∈ UserProfile.history staleFlag →
        ¬ takenOn "Aspirina" (toDateString jan5_0800) h) ∧
  UserProfile.medications
    (fst (removeLastMedicationDose jan5_0800 "m2" (Some staleFlag))) =
    [metformina false; aspirina false].
Proof.
  assert (Hres : resolves (Some aspirinaDone) "m2" 1 (aspirina true))
    by reflexivity.
  assert (Hres' : resolves (Some staleFlag) "m2" 1 (aspirina true))
    by reflexivity.
  assert (Hsome : ∃ h, h ∈ UserProfile.history aspirinaDone ∧
                       takenOn "Aspirina" (toDateString jan5_0800) h).
  { exists (doseOf "Aspirina" jan5_0800).
    split; [apply list_elem_of_here | split; reflexivity]. }
  assert (Hnone : ∀ h, h ∈ UserProfile.history staleFlag →
                       ¬ takenOn "Aspirina" (toDateString jan5_0800) h).
  { intros h Hin [_ Hday]. apply list_elem_of_singleton in Hin as ->.
    vm_compute in Hday. discriminate. }
  split; [exact Hres|]. split; [exact Hsome|].
  split.
  - exact (proj1 (removeLastMedicationDose_spec jan5_0800 "m2"
                    (Some aspirinaDone) 1 (aspirina true) Hres) Hsome).
  - split; [exact Hnone|].
    destruct (removeLastMedicationDose_spec jan5_0800 "m2"
                (Some staleFlag) 1 (aspirina true) Hres')
      as (_ & Hnoop & _).
    exact (proj2 (Hnoop Hnone)).
Defined.


(** The helper [getTodayDoseCount], which no function calls, is not the
    count the program runs: it counts an entry whose [medName] equals the
    id it is given whatever the date of the entry, where the count of the
    recorder and of the progress display is 0. *)
Theorem getTodayDoseCount_counts_other_days :
  toDateString jan4_0800 ≠ toDateString jan5_0800 ∧
  getTodayDoseCount (Some insulinaYesterday) jan5_0800
    (UserProfile.history insulinaYesterday) "insulina" = 1 ∧
  countToday jan5_0800 (UserProfile.history insulinaYesterday)
    (Medication.name insulina) = 0 ∧
  fst (getDoseProgress jan5_0800 insulinaYesterday insulina) = 0.
Proof.
  split_and!; [|reflexivity..].
  intros Heq. vm_compute in Heq. discriminate.
Qed.

(** Scenario F.  Two fixed times five minutes apart, a session started at
    07:55 and polled every 30 seconds for 20 minutes: each time is
    reminded of once, at the first tick of its window, and not at the five
    ticks of the window that follow. *)
Example scenario_F :
  map (λ e, (fst e, App.timeStr (snd e), App.key (snd e)))
      (fst (App.poll (Some fiveApart) true
              (App.intervalTicks (jan5_0800 - 300000) 40) ∅)) =
    [(jan5_0800, "08:00", "m1-08:00-5");
     ((jan5_0800 + 300000)%Z, "08:05", "m1-08:05-5")].
Proof. vm_compute. reflexivity. Qed.

(** C9 at a failing input.  The key of a reminder ends in the day of the
    month, so a session that reminded of the 08:00 dose on 5 January 2026
    holds the key of 5 February 2026 already: whatever the ticks that
    follow, no reminder for that dose is emitted on 5 February. *)
Theorem primary_reminder_lost_next_month (granted : bool) (ticks : list Z) :
  let log :=
    fst (App.poll (Some oneTime) granted (jan5_0800 :: ticks) ∅) in
  (∃ r, head log = Some (jan5_0800, r) ∧ App.key r = "m1-08:00-5") ∧
  filter (λ e, UTC.dayNumber (fst e) = feb5_day ∧
               Medication.id (App.med (snd e)) = "m1" ∧
               App.timeStr (snd e) = "08:00") log = [].
Proof.
  cbv zeta. unfold App.poll. cbn [foldl].
  set (acc1 := App.pollTick (Some oneTime) granted ([], ∅) jan5_0800).
  assert (Hlog1 : ∃ r, fst acc1 = [(jan5_0800, r)] ∧
                       App.key r = "m1-08:00-5").
  { destruct granted; eexists; split; vm_compute; reflexivity. }
  assert (Hsent1 : "m1-08:00-5" ∈ snd acc1).
  { apply (bool_decide_unpack _). destruct granted; vm_compute; reflexivity. }
  pose proof (continues_foldl (λ e : Z * App.Reminder, App.key (snd e))
                App.keyedAt (App.pollTick (Some oneTime) granted) ticks
                (pollTick_continues (Some oneTime) granted) acc1)
    as (new & Hlog & HQ & _ & Hfresh & _).
  destruct Hlog1 as (r & Hfst & Hkey).
  rewrite Hlog, Hfst. split.
  - exists r. split; [reflexivity | exact Hkey].
  - apply filter_none. apply Forall_app. split.
    + repeat constructor. intros [Hday _]. vm_compute in Hday. discriminate.
    + apply Forall_forall. intros e He (Hday & Hid & Htime).
      apply (Hfresh e He).
      rewrite Forall_forall in HQ. rewrite (HQ e He).
      unfold App.notifKey. rewrite Hid, Htime.
      change (getDate (fst e)) with (snd (UTC.civil (UTC.dayNumber (fst e)))).
      rewrite Hday. exact Hsent1.
Qed.

End OnUTC.

(** * Further properties of the recorder *)

Section RecorderMore.
Context `{Host}.

Lemma countToday_append now l1 l2 medName :
  countToday now (l1 ++ l2) medName =
  countToday now l1 medName + countToday now l2 medName.
Proof. unfold countToday. rewrite filter_app, length_app. reflexivity. Qed.

Lemma countToday_none now l medName :
  Forall (λ h, ¬ takenOn medName (toDateString now) h) l →
  countToday now l medName = 0.
Proof. intros Hl. unfold countToday. rewrite filter_none by exact Hl. reflexivity. Qed.

(** The count under any name after a record. *)
Lemma record_count now medId context st medIndex med medName :
  resolves st medId medIndex med →
  countToday now
    (UserProfile.history (fst (recordMedicationDose now medId context st)))
    medName =
  countToday now (UserProfile.history (getProfile st)) medName +
  (if decide (medName = Medication.name med) then 1 else 0).
Proof.
  intros Hres. rewrite (recordMedicationDose_history _ _ _ _ _ _ Hres).
  rewrite countToday_cons. cbn [MedicationLog.medName MedicationLog.timestamp].
  destruct (decide (medName = Medication.name med)) as [->|Hne].
  - rewrite decide_True by (split; reflexivity). lia.
  - rewrite decide_False by (intros [Heq _]; congruence). lia.
Qed.

(** The history after an undo, split at the entry taken out. *)
Lemma undo_history now medId st medIndex med :
  resolves st medId medIndex med →
  let today := takenOn (Medication.name med) (toDateString now) in
  let before := UserProfile.history (getProfile st) in
  let after :=
    UserProfile.history (fst (removeLastMedicationDose now medId st)) in
  (Forall (λ h, ¬ today h) before ∧ after = before) ∨
  (∃ l1 h l2, before = l1 ++ h :: l2 ∧ today h ∧
              Forall (λ h', ¬ today h') l1 ∧ after = l1 ++ l2).
Proof.
  intros Hres today before after. subst before after.
  rewrite (removeLastMedicationDose_unfold now _ _ _ _ Hres).
  cbv zeta. cbn [fst UserProfile.history UserProfile.with_medications_history].
  fold today.
  destruct (list_find today (UserProfile.history (getProfile st)))
    as [[i h]|] eqn:Hfind.
  - right.
    destruct (list_find_split _ _ _ _ Hfind) as (l1 & l2 & Heq & _ & Hl1 & Hdel).
    pose proof (list_find_lookup _ _ _ _ Hfind) as [_ Hh].
    exists l1, h, l2. rewrite Hdel. auto.
  - left. split; [|reflexivity]. apply list_find_None in Hfind. exact Hfind.
Qed.

Lemma undo_count now medId st medIndex med medName :
  resolves st medId medIndex med →
  countToday now
    (UserProfile.history (fst (removeLastMedicationDose now medId st)))
    medName =
  if decide (medName = Medication.name med)
  then Nat.pred (countToday now (UserProfile.history (getProfile st)) medName)
  else countToday now (UserProfile.history (getProfile st)) medName.
Proof.
  intros Hres.
  destruct (undo_history now medId st medIndex med Hres)
    as [[Hnone ->]|(l1 & h & l2 & -> & Hh & Hl1 & ->)].
  - destruct (decide _) as [->|_]; [|reflexivity].
    rewrite countToday_none by exact Hnone. reflexivity.
  - rewrite !countToday_append, countToday_cons.
    destruct (decide (medName = Medication.name med)) as [->|Hne].
    + rewrite (countToday_none now l1) by exact Hl1.
      rewrite decide_True by exact Hh. reflexivity.
    + rewrite decide_False; [reflexivity|].
      intros [Hname _]. destruct Hh as [Hname' _]. congruence.
Qed.

Lemma fmap_insert_same {A B : Type} (f : A → B) (l : list A) i x y :
  l !! i = Some x → f y = f x → f <$> <[i:=y]> l = f <$> l.
Proof.
  intros Hi Hf. rewrite list_fmap_insert, Hf.
  apply list_insert_id. rewrite list_lookup_fmap, Hi. reflexivity.
Qed.

(** X1. The medications keep their ids, their names and their order under
    [recordMedicationDose], [removeLastMedicationDose] and
    [resetDailyTracking], whatever the id passed. *)
Theorem medication_identities_stable now medId context st :
  let ident := λ m, (Medication.id m, Medication.name m) in
  let before := ident <$> UserProfile.medications (getProfile st) in
  ident <$> UserProfile.medications
              (fst (recordMedicationDose now medId context st)) = before ∧
  ident <$> UserProfile.medications
              (fst (removeLastMedicationDose now medId st)) = before ∧
  ident <$> UserProfile.medications (fst (resetDailyTracking st)) = before.
Proof.
  cbv zeta. split_and!.
  - unfold recordMedicationDose.
    destruct (list_find _ _) as [[i med]|] eqn:Hfind; [|reflexivity].
    apply list_find_lookup in Hfind as [Hi _]. cbn [fst].
    cbn [UserProfile.medications UserProfile.with_medications_history].
    eapply fmap_insert_same; [exact Hi | reflexivity].
  - unfold removeLastMedicationDose.
    destruct (list_find _ (UserProfile.medications _)) as [[i med]|] eqn:Hfind;
      [|reflexivity].
    apply list_find_lookup in Hfind as [Hi _]. cbn [fst].
    cbn [UserProfile.medications UserProfile.with_medications_history].
    eapply fmap_insert_same; [exact Hi | reflexivity].
  - unfold resetDailyTracking. cbn [fst].
    cbn [UserProfile.medications UserProfile.with_medications].
    rewrite <- list_fmap_compose. reflexivity.
Qed.

(** X2. A record for a medication raises today's count of every name equal
    to its name by one and of no other name: the count is kept by name, so
    a second medication under the same name sees the dose too. *)
Theorem recordMedicationDose_counts_by_name now medId context st medIndex
    med medName :
  resolves st medId medIndex med →
  countToday now
    (UserProfile.history (fst (recordMedicationDose now medId context st)))
    medName =
  countToday now (UserProfile.history (getProfile st)) medName +
  (if decide (medName = Medication.name med) then 1 else 0).
Proof. apply record_count. Qed.

(** X3. An undo lowers today's count under the name of the medication by
    one, stopping at zero, leaves the count under every other name as it
    was, and shortens the ledger by at most one entry. *)
Theorem removeLastMedicationDose_counts now medId st medIndex med medName :
  resolves st medId medIndex med →
  let before := UserProfile.history (getProfile st) in
  let after :=
    UserProfile.history (fst (removeLastMedicationDose now medId st)) in
  countToday now after medName =
    (if decide (medName = Medication.name med)
     then Nat.pred (countToday now before medName)
     else countToday now before medName) ∧
  length after =
    length before -
    (if decide (0 < countToday now before (Medication.name med))
     then 1 else 0).
Proof.
  intros Hres before after. subst before after.
  split; [exact (undo_count now medId st medIndex med medName Hres)|].
  destruct (undo_history now medId st medIndex med Hres)
    as [[Hnone ->]|(l1 & h & l2 & -> & Hh & Hl1 & ->)].
  - rewrite countToday_none by exact Hnone.
    rewrite decide_False by lia. lia.
  - rewrite countToday_append, countToday_cons.
    destruct (decide (MedicationLog.medName h = _ ∧ _)) as [_|Hn];
      [|contradiction].
    rewrite decide_True by lia. rewrite !length_app. cbn [length]. lia.
Qed.

(** One record, as the next one finds the store. *)
Lemma record_step now medId context st medIndex med :
  resolves st medId medIndex med →
  let st' := snd (recordMedicationDose now medId context st) in
  let flag :=
    bool_decide
      (getTargetDoses med ≤
       S (countToday now (UserProfile.history (getProfile st))
                     (Medication.name med))) in
  resolves st' medId medIndex (Medication.with_takenToday flag med) ∧
  getProfile st' = fst (recordMedicationDose now medId context st).
Proof.
  intros Hres st' flag. subst st' flag.
  pose proof (resolves_lookup _ _ _ _ Hres) as [_ Hid].
  rewrite (recordMedicationDose_store _ _ _ _ _ _ Hres).
  split; [|reflexivity].
  unfold resolves. cbn [getProfile].
  rewrite (recordMedicationDose_medications _ _ _ _ _ _ Hres).
  eapply list_find_insert_same; [exact Hres | exact Hid].
Qed.

Lemma record_all medId context now0 (times : list Z) :
  Forall (λ t, toDateString t = toDateString now0) times →
  ∀ st medIndex med,
    resolves st medId medIndex med →
    Medication.takenToday med = isCompleted now0 (getProfile st) med →
    let st' :=
      foldl (λ s t, snd (recordMedicationDose t medId context s)) st times in
    ∃ med',
      resolves st' medId medIndex med' ∧
      Medication.same_but_takenToday med' med ∧
      countToday now0 (UserProfile.history (getProfile st'))
                 (Medication.name med) =
        countToday now0 (UserProfile.history (getProfile st))
                   (Medication.name med) + length times ∧
      Medication.takenToday med' = isCompleted now0 (getProfile st') med'.
Proof.
  induction 1 as [|t times Ht _ IH]; intros st medIndex med Hres Hflag.
  - cbn [foldl length]. exists med. split_and!.
    + exact Hres.
    + repeat split.
    + lia.
    + exact Hflag.
  - cbn [foldl].
    destruct (record_step t medId context st medIndex med Hres)
      as [Hres1 Hst1].
    set (st1 := snd (recordMedicationDose t medId context st)) in *.
    assert (Hcount1 :
      countToday now0 (UserProfile.history (getProfile st1))
                 (Medication.name med) =
      S (countToday now0 (UserProfile.history (getProfile st))
                    (Medication.name med))).
    { rewrite Hst1, <- !(countToday_same_day now0 t) by exact Ht.
      rewrite (record_count t medId context st medIndex med _ Hres).
      rewrite decide_True by reflexivity. lia. }
    specialize (IH st1 medIndex _ Hres1).
    destruct IH as (med' & Hres' & Hsame & Hcount & Hflag').
    { rewrite isCompleted_eq.
      cbn [Medication.takenToday Medication.with_takenToday Medication.name].
      change (getTargetDoses (Medication.with_takenToday _ med))
        with (getTargetDoses med).
      rewrite Hcount1, (countToday_same_day now0 t) by exact Ht.
      reflexivity. }
    exists med'. split_and!.
    + exact Hres'.
    + destruct Hsame as (? & ? & ? & ? & ? & ? & ? & ? & ?).
      repeat split; assumption.
    + cbn [Medication.name Medication.with_takenToday] in Hcount.
      rewrite Hcount, Hcount1. cbn [length]. lia.
    + exact Hflag'.
Qed.

(** X4. Doses add up.  Recording a medication at one or more instants of
    the same calendar day raises today's count under its name by the
    number of records, and the [takenToday] stored at the end is true
    exactly when that count has reached the target: short of the target
    the medication stays pending, from the target on it stays completed. *)
Theorem record_doses_accumulate medId context st medIndex med t
    (rest : list Z) :
  resolves st medId medIndex med →
  Forall (λ t', toDateString t' = toDateString t) rest →
  let st' :=
    foldl (λ s t', snd (recordMedicationDose t' medId context s)) st
          (t :: rest) in
  let before :=
    countToday t (UserProfile.history (getProfile st)) (Medication.name med) in
  ∃ med',
    resolves st' medId medIndex med' ∧
    countToday t (UserProfile.history (getProfile st'))
               (Medication.name med) = before + S (length rest) ∧
    (Medication.takenToday med' = true ↔
     getTargetDoses med ≤ before + S (length rest)).
Proof.
  intros Hres Hrest st' before. subst st' before. cbn [foldl].
  destruct (record_step t medId context st medIndex med Hres)
    as [Hres1 Hst1].
  set (st1 := snd (recordMedicationDose t medId context st)) in *.
  assert (Hcount1 :
    countToday t (UserProfile.history (getProfile st1))
               (Medication.name med) =
    S (countToday t (UserProfile.history (getProfile st))
                  (Medication.name med))).
  { rewrite Hst1, (record_count t medId context st medIndex med _ Hres).
    rewrite decide_True by reflexivity. lia. }
  destruct (record_all medId context t rest Hrest st1 medIndex _ Hres1)
    as (med' & Hres' & Hsame & Hcount & Hflag').
  { rewrite isCompleted_eq.
    cbn [Medication.takenToday Medication.with_takenToday Medication.name].
    change (getTargetDoses (Medication.with_takenToday _ med))
      with (getTargetDoses med).
    rewrite Hcount1. reflexivity. }
  cbn [Medication.name Medication.with_takenToday] in Hcount.
  exists med'. split_and!.
  - exact Hres'.
  - rewrite Hcount, Hcount1. lia.
  - rewrite Hflag', isCompleted_eq, bool_decide_eq_true.
    destruct Hsame as (_ & Hname & _ & _ & _ & _ & Hty & Hft & Hmt).
    assert (Htarget : getTargetDoses med' = getTargetDoses med).
    { unfold getTargetDoses. cbn in Hty, Hft, Hmt.
      rewrite Hty, Hft, Hmt. reflexivity. }
    cbn in Hname. rewrite Htarget, Hname, Hcount, Hcount1. lia.
Qed.

(** X5. Where the names of the medications are pairwise distinct, a cache
    that agrees with the ledger for every medication still does after
    [recordMedicationDose] and after [removeLastMedicationDose] at the
    same instant, for any id. *)
Theorem cacheConsistent_preserved now medId context st :
  NoDup (Medication.name <$> UserProfile.medications (getProfile st)) →
  cacheConsistent now (getProfile st) →
  cacheConsistent now (fst (recordMedicationDose now medId context st)) ∧
  cacheConsistent now (fst (removeLastMedicationDose now medId st)).
Proof.
  intros Hnames Hcons. unfold cacheConsistent in *.
  destruct (list_find (λ m, Medication.id m = medId)
              (UserProfile.medications (getProfile st)))
    as [[medIndex med]|] eqn:Hfind.
  2:{ unfold recordMedicationDose, removeLastMedicationDose.
      rewrite Hfind. split; exact Hcons. }
  fold (resolves st medId medIndex med) in Hfind.
  pose proof (resolves_lookup _ _ _ _ Hfind) as [Hi _].
  assert (Hother : ∀ j m, j ≠ medIndex →
            UserProfile.medications (getProfile st) !! j = Some m →
            Medication.name m ≠ Medication.name med).
  { intros j m Hj Hm Heq. apply Hj.
    apply (NoDup_lookup _ j medIndex (Medication.name m) Hnames).
    - rewrite list_lookup_fmap, Hm. reflexivity.
    - rewrite list_lookup_fmap, Hi, Heq. reflexivity. }
  split; apply Forall_lookup; intros j m Hm.
  - rewrite (recordMedicationDose_medications _ _ _ _ _ _ Hfind) in Hm.
    destruct (decide (j = medIndex)) as [->|Hj].
    + rewrite list_lookup_insert_eq in Hm by (eapply lookup_lt_Some, Hi).
      injection Hm as <-. unfold cacheAgrees.
      cbn [Medication.takenToday Medication.with_takenToday Medication.name].
      change (getTargetDoses (Medication.with_takenToday _ med))
        with (getTargetDoses med).
      rewrite (record_count now medId context st medIndex med _ Hfind).
      rewrite decide_True by reflexivity.
      rewrite bool_decide_eq_true. lia.
    + rewrite list_lookup_insert_ne in Hm by congruence.
      pose proof (Forall_lookup_1 _ _ _ _ Hcons Hm) as Hagree.
      unfold cacheAgrees in *.
      rewrite (record_count now medId context st medIndex med _ Hfind).
      rewrite decide_False by (apply (Hother j m Hj Hm)).
      rewrite Nat.add_0_r. exact Hagree.
  - pose proof (undo_count now medId st medIndex med (Medication.name m)
                  Hfind) as Hcount.
    rewrite (removeLastMedicationDose_unfold now _ _ _ _ Hfind) in Hm, Hcount
      |- *.
    cbv zeta in Hm, Hcount |- *.
    cbn [fst UserProfile.medications UserProfile.history
         UserProfile.with_medications_history] in Hm, Hcount |- *.
    destruct (decide (j = medIndex)) as [->|Hj].
    + rewrite list_lookup_insert_eq in Hm by (eapply lookup_lt_Some, Hi).
      injection Hm as <-. unfold cacheAgrees.
      cbn [Medication.takenToday Medication.with_takenToday Medication.name
           UserProfile.history UserProfile.with_medications_history].
      change (getTargetDoses (Medication.with_takenToday _ med))
        with (getTargetDoses med).
      apply bool_decide_eq_true.
    + rewrite list_lookup_insert_ne in Hm by congruence.
      pose proof (Forall_lookup_1 _ _ _ _ Hcons Hm) as Hagree.
      unfold cacheAgrees in *.
      cbn [UserProfile.history UserProfile.with_medications_history].
      rewrite Hcount.
      rewrite decide_False by (apply (Hother j m Hj Hm)). exact Hagree.
Qed.

Lemma with_medications_twice l l' p :
  UserProfile.with_medications l (UserProfile.with_medications l' p) =
  UserProfile.with_medications l p.
Proof. reflexivity. Qed.

(** An id-preserving rewrite of every medication keeps what an id
    resolves to, up to the rewrite. *)
Lemma resolves_fmap (f : Medication.t → Medication.t) p medId medIndex med :
  (∀ m, Medication.id (f m) = Medication.id m) →
  resolves (Some p) medId medIndex med →
  resolves (Some (UserProfile.with_medications
                    (f <$> UserProfile.medications p) p))
           medId medIndex (f med).
Proof.
  unfold resolves. cbn [getProfile UserProfile.medications
                        UserProfile.with_medications].
  intros Hf Hfind. apply list_find_Some in Hfind as (Hi & Hid & Hlt).
  apply list_find_Some. split_and!.
  - rewrite list_lookup_fmap, Hi. reflexivity.
  - rewrite Hf. exact Hid.
  - intros j y Hj Hji. rewrite list_lookup_fmap in Hj.
    destruct (UserProfile.medications p !! j) as [m|] eqn:Hm; [|discriminate].
    injection Hj as <-. rewrite Hf. eapply Hlt; eassumption.
Qed.

(** X6. [resetDailyTracking] is idempotent: a second reset returns and
    stores what the first did. *)
Theorem resetDailyTracking_idempotent st :
  resetDailyTracking (snd (resetDailyTracking st)) = resetDailyTracking st.
Proof.
  unfold resetDailyTracking. cbn [snd saveProfile getProfile].
  cbn [UserProfile.medications UserProfile.with_medications].
  assert (Hmap :
    map (Medication.with_takenToday false)
        (map (Medication.with_takenToday false)
             (UserProfile.medications (getProfile st))) =
    map (Medication.with_takenToday false)
        (UserProfile.medications (getProfile st))).
  { rewrite map_map. reflexivity. }
  rewrite Hmap. reflexivity.
Qed.

(** X7. [resetDailyTracking] touches the [takenToday] flags and nothing
    else: medication by medication every other field is kept, the ledger
    and the rest of the profile are kept, and so the progress and the
    completion the medication list displays are what they were. *)
Theorem resetDailyTracking_frame now st :
  let profile := getProfile st in
  let newProfile := fst (resetDailyTracking st) in
  Forall2 (λ m' m,
             Medication.same_but_takenToday m' m ∧
             getDoseProgress now newProfile m' =
               getDoseProgress now profile m ∧
             isCompleted now newProfile m' = isCompleted now profile m)
          (UserProfile.medications newProfile)
          (UserProfile.medications profile) ∧
  UserProfile.history newProfile = UserProfile.history profile ∧
  UserProfile.same_frame newProfile profile.
Proof.
  cbv zeta. unfold resetDailyTracking. cbn [fst]. split_and!.
  - cbn [UserProfile.medications UserProfile.with_medications].
    apply Forall2_fmap_l, Forall_Forall2_diag, Forall_forall.
    intros m _. split_and!; [repeat split | reflexivity | reflexivity].
  - reflexivity.
  - repeat split.
Qed.

(** X8. The clearing of a reset does not outlive the next record: after
    [resetDailyTracking], a record for a medication sets its [takenToday]
    from the ledger again, so a medication whose target was already met
    today is marked taken once more. *)
Theorem reset_then_record now medId context st medIndex med :
  resolves st medId medIndex med →
  let cleared := snd (resetDailyTracking st) in
  let newProfile := fst (recordMedicationDose now medId context cleared) in
  ∃ med',
    UserProfile.medications newProfile !! medIndex = Some med' ∧
    (Medication.takenToday med' = true ↔
     getTargetDoses med ≤
       S (countToday now (UserProfile.history (getProfile st))
                     (Medication.name med))).
Proof.
  intros Hres cleared newProfile. subst cleared newProfile.
  assert (Hres' : resolves (snd (resetDailyTracking st)) medId medIndex
                    (Medication.with_takenToday false med)).
  { unfold resetDailyTracking. cbn [snd saveProfile].
    destruct st as [p|]; cbn [getProfile] in *.
    - apply (resolves_fmap (Medication.with_takenToday false));
        [reflexivity | exact Hres].
    - apply (resolves_fmap (Medication.with_takenToday false));
        [reflexivity | exact Hres]. }
  pose proof (resolves_lookup _ _ _ _ Hres') as [Hi _].
  rewrite (recordMedicationDose_medications _ _ _ _ _ _ Hres').
  eexists. split.
  - apply list_lookup_insert_eq. eapply lookup_lt_Some, Hi.
  - cbn [Medication.takenToday Medication.with_takenToday Medication.name].
    rewrite bool_decide_eq_true. reflexivity.
Qed.

(** X9. After [deleteMedication] the id resolves to nothing, also when
    several medications carried it: a record or an undo for it returns
    the profile the delete saved, and a second delete changes nothing. *)
Theorem deleteMedication_then_noop now medId context st :
  let deleted := deleteMedication medId st in
  unresolved (snd deleted) medId ∧
  recordMedicationDose now medId context (snd deleted) = deleted ∧
  removeLastMedicationDose now medId (snd deleted) = deleted ∧
  deleteMedication medId (snd deleted) = deleted.
Proof.
  cbv zeta.
  assert (Hun : unresolved (snd (deleteMedication medId st)) medId).
  { unfold unresolved, deleteMedication. cbn [snd saveProfile getProfile].
    cbn [UserProfile.medications UserProfile.with_medications].
    apply list_find_None, Forall_forall. intros m Hm.
    apply list_elem_of_filter in Hm as [Hm _]. exact Hm. }
  split; [exact Hun|].
  unfold unresolved in Hun.
  unfold recordMedicationDose, removeLastMedicationDose. rewrite Hun.
  split_and!; try reflexivity.
  unfold deleteMedication. cbn [snd saveProfile getProfile].
  cbn [UserProfile.medications UserProfile.with_medications].
  rewrite list_filter_filter_l by auto. reflexivity.
Qed.

(** X10. Deletes commute: deleting two ids in either order returns and
    stores the same profile. *)
Theorem deleteMedication_commutes a b st :
  deleteMedication a (snd (deleteMedication b st)) =
  deleteMedication b (snd (deleteMedication a st)).
Proof.
  unfold deleteMedication. cbn [snd saveProfile getProfile].
  cbn [UserProfile.medications UserProfile.with_medications].
  rewrite !list_filter_filter.
  rewrite (list_filter_iff (λ m, Medication.id m ≠ a ∧ Medication.id m ≠ b)
             (λ m, Medication.id m ≠ b ∧ Medication.id m ≠ a))
    by (intros m; tauto).
  reflexivity.
Qed.

(** X11. Where [getTodayDoseCount] is right.  For an id that resolves it
    never counts less than the count by name and date of the recorder,
    and it counts the same when no entry of the history carries the id as
    its [medName]. *)
Theorem getTodayDoseCount_agrees st now history medId medIndex med :
  resolves st medId medIndex med →
  countToday now history (Medication.name med) ≤
    getTodayDoseCount st now history medId ∧
  (Forall (λ h, MedicationLog.medName h ≠ medId) history →
   getTodayDoseCount st now history medId =
     countToday now history (Medication.name med)).
Proof.
  unfold resolves, getTodayDoseCount, countToday. intros ->.
  cbn [fmap option_fmap option_map snd].
  split.
  - induction history as [|h history IH]; [reflexivity|].
    rewrite !filter_cons.
    destruct (decide (takenOn _ _ h)) as [[Hname Hday]|_].
    + rewrite decide_True by (right; split; [congruence | exact Hday]).
      cbn [length]. lia.
    + destruct (decide _); cbn [length]; lia.
  - induction 1 as [|h history Hh _ IH]; [reflexivity|].
    rewrite !filter_cons.
    destruct (decide (takenOn _ _ h)) as [[Hname Hday]|Hno].
    + rewrite decide_True by (right; split; [congruence | exact Hday]).
      cbn [length]. rewrite IH. reflexivity.
    + rewrite decide_False; [exact IH|].
      intros [Hid|[Hname Hday]]; [contradiction|].
      apply Hno. split; [congruence | exact Hday].
Qed.

End RecorderMore.

(** * The local write under a quota *)

Lemma stripImage_idempotent m : stripImage (stripImage m) = stripImage m.
Proof. reflexivity. Qed.

(** X12. The copy saved when the quota is exceeded is the profile with
    every meal of the plan stripped of its image and nothing else changed:
    medications, ledger and the remaining fields are those of the profile,
    no meal of the copy carries an image, and stripping the copy again
    changes nothing. *)
Theorem lightProfile_strips_images_only profile :
  lightProfile profile =
    withMealPlan (map stripImage <$> UserProfile.mealPlan profile) profile ∧
  UserProfile.medications (lightProfile profile) =
    UserProfile.medications profile ∧
  UserProfile.history (lightProfile profile) = UserProfile.history profile ∧
  (∀ plan m, UserProfile.mealPlan (lightProfile profile) = Some plan →
             m ∈ plan → Meal.imageUrl m = None) ∧
  lightProfile (lightProfile profile) = lightProfile profile.
Proof.
  assert (Heq : lightProfile profile =
                withMealPlan (map stripImage <$> UserProfile.mealPlan profile)
                             profile).
  { unfold lightProfile, withMealPlan.
    destruct (UserProfile.mealPlan profile) as [[|m ms]|]; reflexivity. }
  split_and!; try reflexivity.
  - exact Heq.
  - intros plan m Hsome Hin. rewrite Heq in Hsome.
    cbn [withMealPlan UserProfile.mealPlan] in Hsome.
    destruct (UserProfile.mealPlan profile) as [plan0|]; [|discriminate].
    injection Hsome as <-. apply list_elem_of_fmap in Hin as (m0 & -> & _).
    reflexivity.
  - destruct profile as [? ? ? ? ? ? ? ? ? ? ? ? ? ? ? [[|m ms]|] ?];
      try reflexivity.
    unfold lightProfile. cbn. rewrite map_map. reflexivity.
Qed.

(** X13. Whatever [localStorage] answers, a save does not corrupt the
    critical data: afterwards the store holds what it held before, or a
    profile with the medications and the ledger of the one being saved;
    when the first write is stored it is that profile itself. *)
Theorem saveProfileAnswered_keeps_critical_data answer profile st :
  let st' := saveProfileAnswered answer profile st in
  (st' = st ∨
   (UserProfile.medications (getProfile st') =
      UserProfile.medications profile ∧
    UserProfile.history (getProfile st') = UserProfile.history profile)) ∧
  (answer = Stored → st' = saveProfile profile st).
Proof.
  cbv zeta. split.
  - destruct answer as [|[|]|]; cbn; auto.
  - intros ->. reflexivity.
Qed.

(** * Further properties of the reminder poll *)

Section PollMore.
Context `{Host}.

Lemma continues_impl {E : Type} (keyOf : E → string) (Q Q' : E → Prop)
    acc acc' :
  (∀ e, Q e → Q' e) →
  App.continues keyOf Q acc acc' → App.continues keyOf Q' acc acc'.
Proof.
  intros Himpl (new & Hlog & HQ & Hnd & Hfresh & Hsent).
  exists new. split_and!; try assumption.
  eapply Forall_impl; [exact HQ | exact Himpl].
Qed.

Lemma continues_foldl_in {E X : Type} (keyOf : E → string) (Q : E → Prop)
    (f : list E * gset string → X → list E * gset string) xs :
  (∀ acc x, x ∈ xs → App.continues keyOf Q acc (f acc x)) →
  ∀ acc, App.continues keyOf Q acc (foldl f acc xs).
Proof.
  induction xs as [|x xs IH]; intros Hf acc; cbn [foldl].
  - apply continues_refl.
  - eapply continues_trans.
    + apply Hf, list_elem_of_here.
    + apply IH. intros acc' x' Hx'. apply Hf, list_elem_of_further, Hx'.
Qed.

Lemma checkTime_due granted now med acc timeStr :
  App.continues App.key
    (λ r, App.med r = med ∧ App.timeStr r = timeStr ∧
          App.inWindow now timeStr ∧
          App.alert r = App.primaryAlert granted med)
    acc (App.checkTime granted now med acc timeStr).
Proof.
  unfold App.checkTime. destruct acc as [emitted sent].
  destruct (App.getMinutes timeStr) as [scheduledMinutes|] eqn:Hmin;
    [|apply continues_refl].
  cbv zeta.
  destruct (_ && _)%bool eqn:Hwin; [|apply continues_refl].
  destruct (bool_decide _) eqn:Hsent; [apply continues_refl|].
  apply bool_decide_eq_false in Hsent.
  apply andb_prop in Hwin as [Hlo Hhi].
  apply Z.leb_le in Hlo, Hhi.
  eexists [_]. cbn [fst snd]. split_and!.
  - reflexivity.
  - repeat constructor. exists scheduledMinutes. auto.
  - cbn. apply NoDup_singleton.
  - intros e He. apply list_elem_of_singleton in He as ->. exact Hsent.
  - cbn. set_solver.
Qed.

Lemma checkMedications_due profile granted now sent :
  App.continues App.key (reminderDue profile granted now)
    ([], sent) (App.checkMedications profile granted now sent).
Proof.
  unfold App.checkMedications. apply continues_foldl_in.
  intros acc med Hmed. unfold App.checkMedication.
  destruct (Medication.scheduleType med) eqn:Hty; [|apply continues_refl].
  destruct (Medication.fixedTimes med) as [times|] eqn:Htimes;
    [|apply continues_refl].
  destruct (Medication.takenToday med) eqn:Hpending; [apply continues_refl|].
  apply continues_foldl_in. intros acc' timeStr Hin.
  eapply continues_impl; [|apply checkTime_due].
  intros r (Hm & Ht & Hwin & Halert). unfold reminderDue.
  rewrite Hm, Ht. split_and!; try assumption. exists times. auto.
Qed.

(** X16. The poll raises nothing it should not.  Every reminder of the
    log of a session on a profile was raised at its tick for a medication
    of the profile with a fixed schedule and not marked taken, for one of
    its times, inside the window of zero to two minutes after that time,
    through the channel the permission selects: never for a meal-relative
    medication, one marked taken, or outside the window. *)
Theorem poll_only_due profile granted ticks sent :
  Forall (λ e, reminderDue profile granted (fst e) (snd e))
         (fst (App.poll (Some profile) granted ticks sent)).
Proof.
  unfold App.poll.
  assert (Hstep : ∀ acc t,
            App.continues (λ e : Z * App.Reminder, App.key (snd e))
              (λ e, reminderDue profile granted (fst e) (snd e))
              acc (App.pollTick (Some profile) granted acc t)).
  { intros acc t. unfold App.pollTick.
    destruct (UserProfile.onboardingComplete profile);
      [|apply continues_refl].
    pose proof (checkMedications_due profile granted t (snd acc))
      as (new & Hlog & HQ & Hnd & Hfresh & Hsent).
    destruct (App.checkMedications profile granted t (snd acc))
      as [emitted sent'].
    cbn [fst snd] in *. rewrite app_nil_l in Hlog. subst emitted.
    assert (Hkeys : (λ e : Z * App.Reminder, App.key (snd e))
                      <$> map (pair t) new = App.key <$> new).
    { rewrite <- list_fmap_compose. reflexivity. }
    exists (map (pair t) new). split_and!.
    - reflexivity.
    - apply Forall_fmap. exact HQ.
    - rewrite Hkeys. exact Hnd.
    - intros e He. apply list_elem_of_fmap in He as (r & -> & Hr).
      apply Hfresh, Hr.
    - rewrite Hkeys. exact Hsent. }
  pose proof (continues_foldl _ _ (App.pollTick (Some profile) granted)
                ticks Hstep ([], sent))
    as (new & Hlog & HQ & _).
  cbn [fst] in Hlog. rewrite app_nil_l in Hlog. rewrite Hlog. exact HQ.
Qed.

(** X17. No poll before the profile is loaded and its onboarding complete,
    nor after a logout: without a profile, or with onboarding incomplete,
    a session raises no reminder and leaves the set of keys sent as it
    was. *)
Theorem poll_silent profile granted ticks sent :
  match profile with
  | Some p => UserProfile.onboardingComplete p = false
  | None => True
  end →
  App.poll profile granted ticks sent = ([], sent).
Proof.
  intros Hoff. unfold App.poll.
  generalize ([] : list (Z * App.Reminder), sent).
  induction ticks as [|t ticks IH]; intros acc; cbn [foldl].
  - reflexivity.
  - assert (Hsame : App.pollTick profile granted acc t = acc).
    { unfold App.pollTick. destruct profile as [p|]; [|reflexivity].
      rewrite Hoff. reflexivity. }
    rewrite Hsame. apply IH.
Qed.

(** X14. Within one session no reminder is raised twice under one key:
    the keys of the log are pairwise distinct, none of them was in the set
    the session started from, and each is the key the code computes from
    the medication, the time and the tick of its entry. *)
Theorem session_keys_never_repeat profile granted ticks sent :
  let log := fst (App.poll profile granted ticks sent) in
  NoDup ((λ e, App.key (snd e)) <$> log) ∧
  (∀ e, e ∈ log → App.key (snd e) ∉ sent) ∧
  Forall App.keyedAt log.
Proof. apply poll_dedup. Qed.

(** X15. Exactly once in a session.  For a medication with a fixed
    schedule that is not marked taken and one of its times, if some tick of
    the session falls in the trigger window of that time and the key
    computed at that tick was not sent before the session, the log holds
    exactly one reminder under that key, however many ticks fall in the
    window. *)
Theorem reminder_exactly_once_in_session profile granted ticks sent med
    times timeStr now :
  UserProfile.onboardingComplete profile = true →
  med ∈ UserProfile.medications profile →
  Medication.scheduleType med = fixed →
  Medication.fixedTimes med = Some times →
  Medication.takenToday med = false →
  timeStr ∈ times →
  now ∈ ticks → App.inWindow now timeStr →
  App.notifKey med timeStr now ∉ sent →
  length (filter (λ e, App.key (snd e) = App.notifKey med timeStr now)
                 (fst (App.poll (Some profile) granted ticks sent))) = 1.
Proof. apply primary_reminder_once. Qed.

End PollMore.

(** ** Times of day and the 30-second interval *)

Lemma getMinutes_hhmm_all :
  forallb (λ h,
    forallb (λ m,
      bool_decide (App.getMinutes (hhmm (Z.of_nat h) (Z.of_nat m)) =
                   Some (Z.of_nat h * 60 + Z.of_nat m)%Z))
      (seq 0 60))
    (seq 0 24) = true.
Proof. vm_compute. reflexivity. Qed.

Lemma getMinutes_hhmm h m :
  (0 ≤ h < 24)%Z → (0 ≤ m < 60)%Z →
  App.getMinutes (hhmm h m) = Some (h * 60 + m)%Z.
Proof.
  intros Hh Hm.
  pose proof getMinutes_hhmm_all as Hall.
  rewrite forallb_forall in Hall.
  specialize (Hall (Z.to_nat h)).
  rewrite forallb_forall in Hall.
  assert (Hin_h : In (Z.to_nat h) (seq 0 24)) by (apply in_seq; lia).
  assert (Hin_m : In (Z.to_nat m) (seq 0 60)) by (apply in_seq; lia).
  specialize (Hall Hin_h (Z.to_nat m) Hin_m).
  apply bool_decide_eq_true in Hall.
  rewrite !Z2Nat.id in Hall by lia. exact Hall.
Qed.

(** X18. [getMinutes] reads a time of day written as two digits, a colon
    and two digits as the number of minutes since midnight. *)
Theorem getMinutes_reads_hhmm h m :
  (0 ≤ h < 24)%Z → (0 ≤ m < 60)%Z →
  App.getMinutes (hhmm h m) = Some (h * 60 + m)%Z.
Proof. apply getMinutes_hhmm. Qed.

(** An interval of 30 seconds installed before an instant and running up
    to it ticks within the 30 seconds that start at that instant. *)
Lemma intervalTicks_hits n : ∀ start target : Z,
  (start < target)%Z → (target ≤ start + 30000 * Z.of_nat n)%Z →
  ∃ t, t ∈ App.intervalTicks start n ∧ (target ≤ t < target + 30000)%Z.
Proof.
  induction n as [|n IH]; intros start target Hlt Hle.
  - exfalso. lia.
  - cbn [App.intervalTicks].
    destruct (decide (target ≤ start + 30000)%Z) as [Hhit|Hlater].
    + exists (start + 30000)%Z. split; [apply list_elem_of_here | lia].
    + destruct (IH (start + 30000)%Z target) as (t & Hin & Ht); [lia..|].
      exists t. split; [apply list_elem_of_further, Hin | exact Ht].
Qed.

(** On the UTC host, the clock of an instant less than a minute after a
    minute of a day reads that minute, and its date is that of the day. *)
Lemma utc_clock day s t :
  (0 ≤ s < 1440)%Z →
  (day * UTC.msPerDay + s * 60000 ≤ t
   < day * UTC.msPerDay + s * 60000 + 60000)%Z →
  App.currentMinutes (H := UTC.host) t = s ∧
  UTC.dayNumber t = day.
Proof.
  unfold App.currentMinutes, UTC.dayNumber, UTC.msPerDay.
  cbn [getHours getMinutes UTC.host].
  unfold UTC.getHours, UTC.getMinutes, UTC.msPerDay.
  intros Hs Ht. split.
  - Z.div_mod_to_equations. lia.
  - Z.div_mod_to_equations. lia.
Qed.

(** X19. Exactly once a day at 30 seconds.  On the UTC host, for a
    medication with a fixed schedule that is not marked taken and one of
    its times [HH:MM], an interval of 30 seconds installed before that
    time of a day and still running at it raises exactly one reminder
    under the key of that time and day, provided the key was not sent
    before. *)
Theorem utc_reminder_exactly_once profile granted sent med times h m day
    start n :
  UserProfile.onboardingComplete profile = true →
  med ∈ UserProfile.medications profile →
  Medication.scheduleType med = fixed →
  Medication.fixedTimes med = Some times →
  Medication.takenToday med = false →
  hhmm h m ∈ times →
  (0 ≤ h < 24)%Z → (0 ≤ m < 60)%Z →
  let due := (day * UTC.msPerDay + (h * 60 + m) * 60000)%Z in
  (start < due)%Z → (due ≤ start + 30000 * Z.of_nat n)%Z →
  App.notifKey (H := UTC.host) med (hhmm h m) due ∉ sent →
  length
    (filter (λ e, App.key (snd e) =
                  App.notifKey (H := UTC.host) med (hhmm h m) due)
       (fst (App.poll (H := UTC.host) (Some profile) granted
               (App.intervalTicks start n) sent))) = 1.
Proof.
  intros Hon Hmed Hfixed Htimes Hpending Hin Hh Hm due Hstart Hrun Hfresh.
  destruct (intervalTicks_hits n start due Hstart Hrun) as (t & Htick & Ht).
  assert (Hs : (0 ≤ h * 60 + m < 1440)%Z) by lia.
  destruct (utc_clock day (h * 60 + m)%Z t Hs) as [Hclock Hday];
    [subst due; lia|].
  destruct (utc_clock day (h * 60 + m)%Z due Hs) as [_ Hday'];
    [subst due; lia|].
  assert (Hkey : App.notifKey (H := UTC.host) med (hhmm h m) due =
                 App.notifKey (H := UTC.host) med (hhmm h m) t).
  { unfold App.notifKey. cbn [getDate UTC.host]. unfold UTC.getDate.
    rewrite Hday, Hday'. reflexivity. }
  rewrite Hkey in Hfresh |- *.
  apply (primary_reminder_once (H := UTC.host) profile granted _ sent med
           times (hhmm h m) t); try assumption.
  exists (h * 60 + m)%Z. split; [apply getMinutes_hhmm; assumption|].
  rewrite Hclock. lia.
Qed.

(** * Meal logging *)

Section MealLog.
Context `{Host}.

Lemma beforeMeds_spec profile logged med :
  med ∈ Dashboard.beforeMeds profile logged ↔
  Dashboard.dueAt logged before med ∧ med ∈ UserProfile.medications profile.
Proof. apply list_elem_of_filter. Qed.

Lemma afterMeds_spec profile logged med :
  med ∈ Dashboard.afterMeds profile logged ↔
  Dashboard.dueAt logged after med ∧ med ∈ UserProfile.medications profile.
Proof. apply list_elem_of_filter. Qed.

(** X20. Logging a meal always answers with an alert box, and without the
    notification permission it does nothing else: no notification is
    shown and no timer is set. *)
Theorem handleLogMeal_feedback profile logged :
  (∀ granted, ∃ text,
     Dashboard.ShowAlert text ∈ Dashboard.handleLogMeal granted profile logged)
  ∧
  Forall (λ e, ∃ text, e = Dashboard.ShowAlert text)
         (Dashboard.handleLogMeal false profile logged).
Proof.
  split.
  - intros granted. unfold Dashboard.handleLogMeal. cbv zeta.
    destruct (Dashboard.beforeMeds profile logged) as [|b bs].
    + destruct (Dashboard.afterMeds profile logged) as [|a as_].
      * eexists. rewrite app_nil_l. apply list_elem_of_here.
      * destruct granted.
        -- eexists. rewrite app_nil_l. apply list_elem_of_further.
           apply elem_of_app. right. apply list_elem_of_here.
        -- eexists. rewrite app_nil_l. apply list_elem_of_here.
    + eexists. apply elem_of_app. left. apply elem_of_app. right.
      apply list_elem_of_here.
  - unfold Dashboard.handleLogMeal. cbv zeta.
    apply Forall_app. split.
    + destruct (Dashboard.beforeMeds profile logged) as [|b bs];
        repeat constructor. eexists. reflexivity.
    + destruct (Dashboard.afterMeds profile logged) as [|a as_],
               (Dashboard.beforeMeds profile logged) as [|b bs];
        repeat constructor; eexists; reflexivity.
Qed.

(** X21. The urgent reminders a meal sets.  With the permission granted,
    logging a meal leaves an urgent check 30 minutes later for exactly the
    medications of the profile that are not marked taken, are
    meal-relative and have a [before] trigger for that meal, and one 45
    minutes later for exactly those with an [after] trigger; no other
    urgent check is set. *)
Theorem handleLogMeal_urgent_checks granted profile logged delay med :
  (∃ body, Dashboard.UrgentCheckLater delay med body
             ∈ Dashboard.handleLogMeal granted profile logged) ↔
  granted = true ∧ med ∈ UserProfile.medications profile ∧
  ((delay = 30 * 60 * 1000 ∧ Dashboard.dueAt logged before med)%Z ∨
   (delay = 45 * 60 * 1000 ∧ Dashboard.dueAt logged after med)%Z).
Proof.
  unfold Dashboard.handleLogMeal. cbv zeta. split.
  - intros (body & Hin). apply elem_of_app in Hin as [Hin|Hin].
    + destruct (Dashboard.beforeMeds profile logged) as [|b bs] eqn:Hb;
        [inversion Hin|].
      apply elem_of_app in Hin as [Hin|Hin].
      * destruct granted; [|inversion Hin]. split; [reflexivity|].
        apply elem_of_cons in Hin as [Hin|Hin]; [discriminate|].
        apply list_elem_of_fmap in Hin as (m & Heq & Hm).
        injection Heq as -> -> ->. rewrite <- Hb in Hm.
        apply beforeMeds_spec in Hm as [Hdue Hm]. auto.
      * apply list_elem_of_singleton in Hin. discriminate.
    + destruct (Dashboard.afterMeds profile logged) as [|a as_] eqn:Ha.
      * destruct (Dashboard.beforeMeds profile logged).
        -- apply list_elem_of_singleton in Hin. discriminate.
        -- inversion Hin.
      * destruct granted.
        -- split; [reflexivity|].
           apply elem_of_cons in Hin as [Hin|Hin]; [discriminate|].
           apply elem_of_app in Hin as [Hin|Hin].
           ++ apply list_elem_of_fmap in Hin as (m & Heq & Hm).
              injection Heq as -> -> ->. rewrite <- Ha in Hm.
              apply afterMeds_spec in Hm as [Hdue Hm]. auto.
           ++ apply list_elem_of_singleton in Hin. discriminate.
        -- apply list_elem_of_singleton in Hin. discriminate.
  - intros (-> & Hmed & [[-> Hdue]|[-> Hdue]]).
    + assert (Hin : med ∈ Dashboard.beforeMeds profile logged)
        by (apply beforeMeds_spec; auto).
      destruct (Dashboard.beforeMeds profile logged) as [|b bs] eqn:Hb;
        [inversion Hin|].
      eexists. apply elem_of_app. left. apply elem_of_app. left.
      apply list_elem_of_further.
      apply (list_elem_of_fmap_2
               (λ med, Dashboard.UrgentCheckLater _ med _)), Hin.
    + assert (Hin : med ∈ Dashboard.afterMeds profile logged)
        by (apply afterMeds_spec; auto).
      destruct (Dashboard.afterMeds profile logged) as [|a as_] eqn:Ha;
        [inversion Hin|].
      eexists. apply elem_of_app. right.
      apply list_elem_of_further. apply elem_of_app. left.
      apply (list_elem_of_fmap_2
               (λ med, Dashboard.UrgentCheckLater _ med _)), Hin.
Qed.

(** X22. The urgent check looks again before it alerts: once the
    medication is deleted, the timer left by a meal shows nothing. *)
Theorem urgentCheck_after_delete med body st :
  Dashboard.urgentCheck (snd (deleteMedication (Medication.id med) st))
                        med body = None.
Proof.
  unfold Dashboard.urgentCheck.
  assert (Hun : unresolved (snd (deleteMedication (Medication.id med) st))
                           (Medication.id med)).
  { unfold unresolved, deleteMedication. cbn [snd saveProfile getProfile].
    cbn [UserProfile.medications UserProfile.with_medications].
    apply list_find_None, Forall_forall. intros m Hm.
    apply list_elem_of_filter in Hm as [Hm _]. exact Hm. }
  unfold unresolved in Hun. rewrite Hun. reflexivity.
Qed.

(** X23. What silences the urgent check is the day's target, not the dose
    of the meal.  After a record for the medication the timer shows
    nothing exactly when that record brought today's count to the target;
    short of the target it still alerts.  After [resetDailyTracking] it
    alerts whatever the ledger holds. *)
Theorem urgentCheck_reads_cache now context med body st medIndex current :
  resolves st (Medication.id med) medIndex current →
  Dashboard.urgentCheck
    (snd (recordMedicationDose now (Medication.id med) context st))
    med body =
    (if bool_decide
          (getTargetDoses current ≤
           S (countToday now (UserProfile.history (getProfile st))
                         (Medication.name current)))
     then None
     else Some ("⚠️ URGENTE: " ++ Medication.name med, body)%string) ∧
  Dashboard.urgentCheck (snd (resetDailyTracking st)) med body =
    Some ("⚠️ URGENTE: " ++ Medication.name med, body)%string.
Proof.
  intros Hres. split.
  - destruct (record_step now (Medication.id med) context st medIndex
                current Hres) as [Hres1 _].
    unfold Dashboard.urgentCheck. unfold resolves in Hres1. rewrite Hres1.
    cbn [Medication.takenToday Medication.with_takenToday].
    reflexivity.
  - assert (Hres' : resolves (snd (resetDailyTracking st))
                      (Medication.id med) medIndex
                      (Medication.with_takenToday false current)).
    { unfold resetDailyTracking. cbn [snd saveProfile].
      destruct st as [p|]; cbn [getProfile] in *;
        apply (resolves_fmap (Medication.with_takenToday false));
        (reflexivity || exact Hres). }
    unfold Dashboard.urgentCheck. unfold resolves in Hres'. rewrite Hres'.
    reflexivity.
Qed.

End MealLog.

(** * The medication form *)

Section Form.
Context `{Host}.

Lemma or_else_nonempty x d :
  d ≠ "" → MedicationManager.or_else x d ≠ "".
Proof.
  intros Hd. unfold MedicationManager.or_else.
  destruct x as [s|]; [|exact Hd].
  destruct (decide (s = "")); assumption.
Qed.

Lemma nonEmpty_Some {A : Type} (xs : option (list A)) l :
  MedicationManager.nonEmpty xs = Some l →
  xs = Some l ∧ ∃ x rest, l = x :: rest.
Proof.
  destruct xs as [[|x rest]|]; cbn; intros Heq; try discriminate.
  injection Heq as <-. eauto.
Qed.

Lemma normalize_fields id (m : Suggestion.t) :
  Medication.takenToday (MedicationManager.normalize id m) = false.
Proof.
  unfold MedicationManager.normalize.
  destruct (decide _); [destruct (MedicationManager.nonEmpty _)|];
    reflexivity.
Qed.

(** X24. Whatever the analysis returns, the medication made of a
    suggestion is well formed: it carries the id drawn and a name that is
    not empty, it is not marked taken, exactly the schedule list its type
    names is present and that list is not empty, so that its target is the
    number of its times or of its meals; it is meal-relative only when the
    suggestion says so and names a meal, and falls back on the single time
    08:00 when it is fixed without a time. *)
Theorem normalize_well_formed id (m : Suggestion.t) :
  let med := MedicationManager.normalize id m in
  Medication.id med = id ∧
  Medication.name med ≠ "" ∧
  Medication.takenToday med = false ∧
  MedicationManager.wellScheduled med ∧
  getTargetDoses med =
    size_opt (Medication.fixedTimes med) +
    size_opt (Medication.mealTriggers med) ∧
  (Medication.scheduleType med = meal_relative ↔
   Suggestion.scheduleType m = Some "meal_relative" ∧
   ∃ x rest, Suggestion.suggestedMeals m = Some (x :: rest)) ∧
  (Medication.scheduleType med = fixed →
   MedicationManager.nonEmpty (Suggestion.suggestedTimes m) = None →
   Medication.fixedTimes med = Some ["08:00"]).
Proof.
  cbv zeta. unfold MedicationManager.normalize.
  assert (Hname : MedicationManager.or_else (Suggestion.name m) "Desconocido"
                  ≠ "") by (apply or_else_nonempty; discriminate).
  destruct (decide (Suggestion.scheduleType m = Some "meal_relative"))
    as [Hty|Hty];
    destruct (Suggestion.suggestedMeals m) as [[|x rest]|];
    destruct (Suggestion.suggestedTimes m) as [[|t ts]|];
    cbn [MedicationManager.nonEmpty]; cbv zeta;
    unfold MedicationManager.wellScheduled;
    cbn [Medication.id Medication.name Medication.takenToday
         Medication.scheduleType Medication.fixedTimes
         Medication.mealTriggers map];
    split_and!;
    try reflexivity; try exact Hname;
    try (eexists _, _; reflexivity);
    try (unfold getTargetDoses, size_opt; cbn; lia);
    try (intros Hf Hn; first [discriminate Hf | discriminate Hn | reflexivity]);
    try (split; [intros _; split; [assumption | eauto] | reflexivity]);
    try (split; [discriminate
                | intros [Hty' (x0 & r0 & Hs)];
                  first [contradiction | discriminate Hs]]).
Qed.

(** X25. [addMedsToProfile] rejects no suggestion and disturbs nothing:
    the medications of the profile stay in place, one medication per
    suggestion is put after them in the order of the suggestions, each not
    marked taken, and the ledger and the other fields of the profile are
    kept. *)
Theorem addMedsToProfile_appends ids newMeds profile :
  let newProfile := MedicationManager.addMedsToProfile ids newMeds profile in
  ∃ added,
    UserProfile.medications newProfile =
      UserProfile.medications profile ++ added ∧
    length added = length newMeds ∧
    (∀ i m, newMeds !! i = Some m →
            added !! i = Some (MedicationManager.normalize (ids i) m)) ∧
    Forall (λ med, Medication.takenToday med = false) added ∧
    UserProfile.history newProfile = UserProfile.history profile ∧
    UserProfile.same_frame newProfile profile.
Proof.
  cbv zeta. unfold MedicationManager.addMedsToProfile. cbv zeta.
  eexists. split_and!.
  - reflexivity.
  - apply length_imap.
  - intros i m Hm. rewrite list_lookup_imap, Hm. reflexivity.
  - apply Forall_lookup. intros i med Hmed.
    rewrite list_lookup_imap in Hmed.
    destruct (newMeds !! i) as [m|]; [|discriminate].
    injection Hmed as <-.
    apply (normalize_fields (ids i) m).
  - reflexivity.
  - repeat split.
Qed.

(** X26. [toggleMealTrigger] flips one trigger and touches no other: the
    trigger toggled is in the new list exactly when it was not in the old
    one, every other trigger is in the new list exactly when it was in the
    old one, and toggling twice a trigger that was absent gives the list
    back. *)
Theorem toggleMealTrigger_flips triggers logged when :
  let toggled := MedicationManager.toggleMealTrigger triggers logged when in
  ({| meal := logged; timing := when |} ∈ toggled ↔
   {| meal := logged; timing := when |} ∉ triggers) ∧
  (∀ t, t ≠ {| meal := logged; timing := when |} →
        (t ∈ toggled ↔ t ∈ triggers)) ∧
  ({| meal := logged; timing := when |} ∉ triggers →
   MedicationManager.toggleMealTrigger toggled logged when = triggers).
Proof.
  cbv zeta.
  assert (Heq : ∀ t, Dashboard.triggerIs logged when t ↔
                     t = {| meal := logged; timing := when |}).
  { intros [tm tt]. unfold Dashboard.triggerIs. cbn. split.
    - intros [-> ->]. reflexivity.
    - intros Ht. injection Ht as -> ->. auto. }
  unfold MedicationManager.toggleMealTrigger.
  destruct (list_find (Dashboard.triggerIs logged when) triggers)
    as [[i t]|] eqn:Hfind.
  - apply list_find_Some in Hfind as (Hi & Ht & _).
    apply Heq in Ht. subst t.
    assert (Hin : {| meal := logged; timing := when |} ∈ triggers)
      by (eapply list_elem_of_lookup_2, Hi).
    split_and!.
    + rewrite list_elem_of_filter, Heq. split; [tauto|]. contradiction.
    + intros t Hne. rewrite list_elem_of_filter, Heq. tauto.
    + contradiction.
  - apply list_find_None in Hfind.
    assert (Hnotin : {| meal := logged; timing := when |} ∉ triggers).
    { intros Hin. rewrite Forall_forall in Hfind.
      apply (Hfind _ Hin), Heq. reflexivity. }
    split_and!.
    + split; [tauto|]. intros _. apply elem_of_app. right.
      apply list_elem_of_here.
    + intros t Hne. rewrite elem_of_app, list_elem_of_singleton. tauto.
    + intros _.
      assert (Hfound :
        list_find (Dashboard.triggerIs logged when)
          (triggers ++ [{| meal := logged; timing := when |}]) =
        Some (length triggers, {| meal := logged; timing := when |})).
      { apply list_find_Some. split_and!.
        - rewrite lookup_app_r by lia. rewrite Nat.sub_diag. reflexivity.
        - apply Heq. reflexivity.
        - intros j y Hj Hlt. rewrite lookup_app_l in Hj by exact Hlt.
          rewrite Forall_forall in Hfind.
          apply Hfind. eapply list_elem_of_lookup_2, Hj. }
      rewrite Hfound, filter_app.
      rewrite (filter_all _ triggers) by exact Hfind.
      rewrite filter_cons_False by (intros Hn; apply Hn, Heq; reflexivity).
      cbn. apply app_nil_r.
Qed.

Lemma unique_by_id (meds : list Medication.t) m m' :
  NoDup (Medication.id <$> meds) → m ∈ meds → m' ∈ meds →
  Medication.id m = Medication.id m' → m = m'.
Proof.
  intros Hnd Hm Hm' Hid.
  apply list_elem_of_lookup in Hm as [i Hi].
  apply list_elem_of_lookup in Hm' as [j Hj].
  assert (i = j).
  { apply (NoDup_lookup _ i j (Medication.id m) Hnd).
    - rewrite list_lookup_fmap, Hi. reflexivity.
    - rewrite list_lookup_fmap, Hj, Hid. reflexivity. }
  subst j. congruence.
Qed.

(** X27. Opening the edit form on a medication and saving it untouched
    changes no dose accounting.  With ids pairwise distinct, every
    medication keeps its place, id, name, dosage, instructions, schedule
    type, [takenToday] and target dose count, so its progress and
    completion display as before; the ledger and the other fields of the
    profile are kept.  Only the frequency text and the presence of the
    unused schedule list may differ. *)
Theorem edit_unchanged_keeps_accounting now profile med :
  med ∈ UserProfile.medications profile →
  NoDup (Medication.id <$> UserProfile.medications profile) →
  let form := MedicationManager.startEditing med in
  ∃ newProfile,
    MedicationManager.saveEdit (Some (fst form)) (Some (snd form)) profile =
      Some newProfile ∧
    Forall2 (λ m' m,
               Medication.id m' = Medication.id m ∧
               Medication.name m' = Medication.name m ∧
               Medication.dosage m' = Medication.dosage m ∧
               Medication.instructions m' = Medication.instructions m ∧
               Medication.scheduleType m' = Medication.scheduleType m ∧
               Medication.takenToday m' = Medication.takenToday m ∧
               getTargetDoses m' = getTargetDoses m ∧
               getDoseProgress now newProfile m' =
                 getDoseProgress now profile m)
            (UserProfile.medications newProfile)
            (UserProfile.medications profile) ∧
    UserProfile.history newProfile = UserProfile.history profile ∧
    UserProfile.same_frame newProfile profile.
Proof.
  intros Hmed Hnd form. subst form.
  unfold MedicationManager.saveEdit. cbv zeta. eexists. split; [reflexivity|].
  split_and!; [|reflexivity|repeat split].
  cbn [UserProfile.medications UserProfile.with_medications].
  apply Forall2_fmap_l, Forall_Forall2_diag, Forall_forall.
  intros m Hm. unfold compose. cbv beta.
  destruct (decide (Some (Medication.id m) =
                    Some (fst (MedicationManager.startEditing med))))
    as [Hid|_].
  - injection Hid as Hid. cbn [fst MedicationManager.startEditing] in Hid.
    assert (m = med) as -> by (eapply unique_by_id; eassumption).
    unfold getDoseProgress, getTargetDoses, MedicationManager.startEditing.
    cbn [fst snd default Medication.id Medication.name Medication.dosage
         Medication.instructions Medication.scheduleType
         Medication.takenToday Medication.fixedTimes Medication.mealTriggers
         UserProfile.history UserProfile.with_medications].
    destruct (Medication.scheduleType med), (Medication.fixedTimes med),
      (Medication.mealTriggers med); split_and!; reflexivity.
  - split_and!; reflexivity.
Qed.

(** X28. A medication added by the form is counted by its name from the
    start.  For a form with a name and an id not yet in use, the new
    medication is found under that id after the existing ones, is not
    marked taken, has the target
    [max 1 n] for the [n] times or triggers of the form, and its progress
    already counts the entries the ledger holds today under its name, for
    instance those left by a medication deleted earlier. *)
Theorem handleManualAdd_counts_by_name now id newMed profile :
  NewMed.name newMed ≠ "" →
  unresolved (Some profile) id →
  ∃ newProfile med,
    MedicationManager.handleManualAdd id newMed profile = Some newProfile ∧
    UserProfile.medications newProfile =
      UserProfile.medications profile ++ [med] ∧
    resolves (Some newProfile) id
             (length (UserProfile.medications profile)) med ∧
    Medication.takenToday med = false ∧
    getDoseProgress now newProfile med =
      (countToday now (UserProfile.history profile) (NewMed.name newMed),
       Nat.max 1 (match NewMed.scheduleType newMed with
                  | fixed => length (NewMed.fixedTimes newMed)
                  | meal_relative => length (NewMed.mealTriggers newMed)
                  end)) ∧
    UserProfile.history newProfile = UserProfile.history profile.
Proof.
  intros Hname Hfree. unfold MedicationManager.handleManualAdd.
  rewrite decide_False by exact Hname. cbv zeta.
  eexists _, _. split; [reflexivity|]. split_and!.
  - reflexivity.
  - unfold resolves, unresolved in *. cbn [getProfile] in *.
    cbn [UserProfile.medications UserProfile.with_medications].
    rewrite list_find_app_r by exact Hfree.
    cbn [list_find]. rewrite decide_True by reflexivity. cbn.
    reflexivity.
  - reflexivity.
  - unfold getDoseProgress, countToday.
    cbn [Medication.name Medication.scheduleType Medication.fixedTimes
         Medication.mealTriggers UserProfile.history
         UserProfile.with_medications].
    f_equal. destruct (NewMed.scheduleType newMed); apply or_one_max.
  - reflexivity.
Qed.

(** The same handler on an empty name. *)
Lemma handleManualAdd_empty_name id newMed profile :
  NewMed.name newMed = "" →
  MedicationManager.handleManualAdd id newMed profile = None.
Proof.
  intros Hname. unfold MedicationManager.handleManualAdd.
  rewrite decide_True by exact Hname. reflexivity.
Qed.

End Form.

(** * The further properties on the concrete inputs *)

Section MoreOnUTC.
Import Scenario Cases.
#[local] Existing Instance UTC.host.

Lemma recordMedicationDose_counts_by_name_witness :
  resolves (Some aspirinaDone) "m2" 1 (aspirina true) ∧
  countToday jan5_0800
    (UserProfile.history
       (fst (recordMedicationDose jan5_0800 "m2" None (Some aspirinaDone))))
    "Aspirina" = 2 ∧
  countToday jan5_0800
    (UserProfile.history
       (fst (recordMedicationDose jan5_0800 "m2" None (Some aspirinaDone))))
    "Metformina" = 0.
Proof.
  assert (Hres : resolves (Some aspirinaDone) "m2" 1 (aspirina true))
    by reflexivity.
  split; [exact Hres|]. split.
  - rewrite (recordMedicationDose_counts_by_name jan5_0800 "m2" None
               (Some aspirinaDone) 1 (aspirina true) "Aspirina" Hres).
    reflexivity.
  - rewrite (recordMedicationDose_counts_by_name jan5_0800 "m2" None
               (Some aspirinaDone) 1 (aspirina true) "Metformina" Hres).
    reflexivity.
Defined.

Lemma removeLastMedicationDose_counts_witness :
  resolves (Some aspirinaDone) "m2" 1 (aspirina true) ∧
  countToday jan5_0800
    (UserProfile.history
       (fst (removeLastMedicationDose jan5_0800 "m2" (Some aspirinaDone))))
    "Aspirina" = 0 ∧
  length
    (UserProfile.history
       (fst (removeLastMedicationDose jan5_0800 "m2" (Some aspirinaDone))))
    = 0.
Proof.
  assert (Hres : resolves (Some aspirinaDone) "m2" 1 (aspirina true))
    by reflexivity.
  split; [exact Hres|].
  destruct (removeLastMedicationDose_counts jan5_0800 "m2"
              (Some aspirinaDone) 1 (aspirina true) "Aspirina" Hres)
    as [Hcount Hlen].
  split.
  - rewrite Hcount. reflexivity.
  - rewrite Hlen. reflexivity.
Defined.

Lemma record_doses_accumulate_witness :
  resolves (Some fresh) "m1" 0 (metformina false) ∧
  Forall (λ t', toDateString t' = toDateString jan5_0800)
         [(jan5_0800 + 60000)%Z] ∧
  ∃ med',
    resolves
      (foldl (λ s t', snd (recordMedicationDose t' "m1" None s)) (Some fresh)
             [jan5_0800; (jan5_0800 + 60000)%Z])
      "m1" 0 med' ∧
    Medication.takenToday med' = true.
Proof.
  assert (Hres : resolves (Some fresh) "m1" 0 (metformina false))
    by reflexivity.
  assert (Hday : Forall (λ t', toDateString t' = toDateString jan5_0800)
                        [(jan5_0800 + 60000)%Z])
    by (repeat constructor).
  split; [exact Hres|]. split; [exact Hday|].
  destruct (record_doses_accumulate "m1" None (Some fresh) 0
              (metformina false) jan5_0800 [(jan5_0800 + 60000)%Z]
              Hres Hday)
    as (med' & Hres' & _ & Hflag).
  exists med'. split; [exact Hres'|].
  apply Hflag. vm_compute. lia.
Defined.

Lemma cacheConsistent_preserved_witness :
  NoDup (Medication.name <$>
           UserProfile.medications (getProfile (Some aspirinaDone))) ∧
  cacheConsistent jan5_0800 (getProfile (Some aspirinaDone)) ∧
  cacheConsistent jan5_0800
    (fst (recordMedicationDose jan5_0800 "m1" None (Some aspirinaDone))) ∧
  cacheConsistent jan5_0800
    (fst (removeLastMedicationDose jan5_0800 "m1" (Some aspirinaDone))).
Proof.
  assert (Hnd : NoDup (Medication.name <$>
                  UserProfile.medications (getProfile (Some aspirinaDone)))).
  { apply (bool_decide_unpack _). reflexivity. }
  assert (Hcons : cacheConsistent jan5_0800 (getProfile (Some aspirinaDone))).
  { repeat constructor; cbn; try discriminate; vm_compute; lia. }
  split; [exact Hnd|]. split; [exact Hcons|].
  exact (cacheConsistent_preserved jan5_0800 "m1" None (Some aspirinaDone)
           Hnd Hcons).
Defined.

Lemma reset_then_record_witness :
  resolves (Some aspirinaDone) "m2" 1 (aspirina true) ∧
  ∃ med',
    UserProfile.medications
      (fst (recordMedicationDose jan5_0800 "m2" None
              (snd (resetDailyTracking (Some aspirinaDone))))) !! 1
      = Some med' ∧
    Medication.takenToday med' = true.
Proof.
  assert (Hres : resolves (Some aspirinaDone) "m2" 1 (aspirina true))
    by reflexivity.
  split; [exact Hres|].
  destruct (reset_then_record jan5_0800 "m2" None (Some aspirinaDone) 1
              (aspirina true) Hres)
    as (med' & Hlookup & Hflag).
  exists med'. split; [exact Hlookup|].
  apply Hflag. vm_compute. lia.
Defined.

Lemma getTodayDoseCount_agrees_witness :
  resolves (Some aspirinaDone) "m2" 1 (aspirina true) ∧
  Forall (λ h, MedicationLog.medName h ≠ "m2")
         (UserProfile.history aspirinaDone) ∧
  getTodayDoseCount (Some aspirinaDone) jan5_0800
    (UserProfile.history aspirinaDone) "m2" = 1.
Proof.
  assert (Hres : resolves (Some aspirinaDone) "m2" 1 (aspirina true))
    by reflexivity.
  assert (Hnone : Forall (λ h, MedicationLog.medName h ≠ "m2")
                         (UserProfile.history aspirinaDone))
    by (repeat constructor; discriminate).
  split; [exact Hres|]. split; [exact Hnone|].
  destruct (getTodayDoseCount_agrees (Some aspirinaDone) jan5_0800
              (UserProfile.history aspirinaDone) "m2" 1 (aspirina true) Hres)
    as [_ Heq].
  rewrite (Heq Hnone). reflexivity.
Defined.

Lemma oneTime_due_at_eight :
  UserProfile.onboardingComplete oneTime = true ∧
  jan5_0800 ∈ aroundEight ∧
  App.inWindow jan5_0800 "08:00".
Proof.
  split_and!.
  - reflexivity.
  - apply (bool_decide_unpack _). vm_compute. reflexivity.
  - exists 480%Z. split; [reflexivity|]. vm_compute. split; discriminate.
Qed.

Lemma reminder_exactly_once_in_session_witness :
  UserProfile.onboardingComplete oneTime = true ∧
  jan5_0800 ∈ aroundEight ∧
  App.inWindow jan5_0800 "08:00" ∧
  length
    (filter (λ e, App.key (snd e) = "m1-08:00-5")
            (fst (App.poll (Some oneTime) true aroundEight ∅))) = 1.
Proof.
  destruct oneTime_due_at_eight as (Hon & Htick & Hwin).
  split; [exact Hon|]. split; [exact Htick|]. split; [exact Hwin|].
  refine (reminder_exactly_once_in_session oneTime true aroundEight ∅
            (Medication.mk "m1" "Metformina" "850 mg" "Horas fijas: 08:00" ""
               false None fixed (Some ["08:00"]) None)
            ["08:00"] "08:00" jan5_0800 Hon _ _ _ _ _ Htick Hwin _);
    try reflexivity.
  - apply list_elem_of_here.
  - apply list_elem_of_here.
  - apply not_elem_of_empty.
Defined.

Lemma poll_silent_witness :
  UserProfile.onboardingComplete DEFAULT_PROFILE = false ∧
  App.poll (Some DEFAULT_PROFILE) true aroundEight ∅ = ([], ∅).
Proof.
  split; [reflexivity|].
  apply (poll_silent (Some DEFAULT_PROFILE) true aroundEight ∅).
  reflexivity.
Defined.

Lemma getMinutes_reads_hhmm_witness :
  (0 ≤ 23 < 24)%Z ∧ (0 ≤ 59 < 60)%Z ∧
  App.getMinutes "23:59" = Some 1439%Z.
Proof.
  assert (Hh : (0 ≤ 23 < 24)%Z) by lia.
  assert (Hm : (0 ≤ 59 < 60)%Z) by lia.
  split; [exact Hh|]. split; [exact Hm|].
  exact (getMinutes_reads_hhmm 23 59 Hh Hm).
Defined.

Lemma utc_reminder_exactly_once_witness :
  (jan5_0800 - 60000 < jan5_0800)%Z ∧
  (jan5_0800 ≤ jan5_0800 - 60000 + 30000 * Z.of_nat 10)%Z ∧
  length
    (filter (λ e, App.key (snd e) = "m1-08:00-5")
            (fst (App.poll (Some oneTime) true aroundEight ∅))) = 1.
Proof.
  assert (Hstart : (jan5_0800 - 60000 < jan5_0800)%Z) by (vm_compute; reflexivity).
  assert (Hrun : (jan5_0800 ≤ jan5_0800 - 60000 + 30000 * Z.of_nat 10)%Z)
    by (vm_compute; discriminate).
  split; [exact Hstart|]. split; [exact Hrun|].
  refine (utc_reminder_exactly_once oneTime true ∅
            (Medication.mk "m1" "Metformina" "850 mg" "Horas fijas: 08:00" ""
               false None fixed (Some ["08:00"]) None)
            ["08:00"] 8 0 20458 (jan5_0800 - 60000) 10
            _ _ _ _ _ _ _ _ Hstart Hrun _);
    try reflexivity; try lia.
  - apply list_elem_of_here.
  - apply list_elem_of_here.
  - apply not_elem_of_empty.
Defined.

Lemma urgentCheck_reads_cache_witness :
  resolves (Some fresh) (Medication.id (aspirina false)) 1 (aspirina false) ∧
  Dashboard.urgentCheck
    (snd (recordMedicationDose jan5_0800 "m2" None (Some fresh)))
    (aspirina false) "Han pasado 30 min desde tu comida. ¡Tómalo ya!" = None ∧
  Dashboard.urgentCheck (snd (resetDailyTracking (Some aspirinaDone)))
    (aspirina false) "Han pasado 30 min desde tu comida. ¡Tómalo ya!" =
    Some ("⚠️ URGENTE: Aspirina",
          "Han pasado 30 min desde tu comida. ¡Tómalo ya!").
Proof.
  assert (Hres : resolves (Some fresh) (Medication.id (aspirina false)) 1
                          (aspirina false)) by reflexivity.
  assert (Hres' : resolves (Some aspirinaDone)
                    (Medication.id (aspirina false)) 1 (aspirina true))
    by reflexivity.
  split; [exact Hres|]. split.
  - exact (proj1 (urgentCheck_reads_cache jan5_0800 None (aspirina false)
                    _ (Some fresh) 1 (aspirina false) Hres)).
  - exact (proj2 (urgentCheck_reads_cache jan5_0800 None (aspirina false)
                    _ (Some aspirinaDone) 1 (aspirina true) Hres')).
Defined.

Lemma edit_unchanged_keeps_accounting_witness :
  aspirina true ∈ UserProfile.medications aspirinaDone ∧
  NoDup (Medication.id <$> UserProfile.medications aspirinaDone) ∧
  ∃ newProfile,
    MedicationManager.saveEdit
      (Some (fst (MedicationManager.startEditing (aspirina true))))
      (Some (snd (MedicationManager.startEditing (aspirina true))))
      aspirinaDone = Some newProfile ∧
    UserProfile.history newProfile = UserProfile.history aspirinaDone.
Proof.
  assert (Hin : aspirina true ∈ UserProfile.medications aspirinaDone)
    by (apply list_elem_of_further, list_elem_of_here).
  assert (Hnd : NoDup (Medication.id <$> UserProfile.medications aspirinaDone)).
  { apply (bool_decide_unpack _). reflexivity. }
  split; [exact Hin|]. split; [exact Hnd|].
  destruct (edit_unchanged_keeps_accounting jan5_0800 aspirinaDone
              (aspirina true) Hin Hnd)
    as (newProfile & Hsave & _ & Hhist & _).
  exists newProfile. split; [exact Hsave | exact Hhist].
Defined.

Lemma handleManualAdd_counts_by_name_witness :
  NewMed.name formAspirina ≠ "" ∧
  unresolved (Some orphaned) "m7" ∧
  ∃ newProfile med,
    MedicationManager.handleManualAdd "m7" formAspirina orphaned =
      Some newProfile ∧
    Medication.takenToday med = false ∧
    getDoseProgress jan5_0800 newProfile med = (1, 1).
Proof.
  assert (Hname : NewMed.name formAspirina ≠ "") by discriminate.
  assert (Hfree : unresolved (Some orphaned) "m7") by reflexivity.
  split; [exact Hname|]. split; [exact Hfree|].
  destruct (handleManualAdd_counts_by_name jan5_0800 "m7" formAspirina
              orphaned Hname Hfree)
    as (newProfile & med & Hadd & _ & _ & Hflag & Hprogress & _).
  exists newProfile, med. split_and!; [exact Hadd | exact Hflag |].
  rewrite Hprogress. reflexivity.
Defined.

End MoreOnUTC.

(** * The count of today's doses, by name and date *)

Section TodayCount.
Context `{Host}.

Lemma countToday_entriesToday now history medName :
  countToday now history medName = entriesToday now medName history.
Proof.
  induction history as [|h history IH]; [reflexivity|].
  rewrite countToday_cons, IH. reflexivity.
Qed.

(** C6. The count of today's doses the program runs, in the progress
    display, in the recorder and in the undo, is the number of ledger
    entries whose [medName] equals the name of the medication and whose
    timestamp falls on the current calendar date.  It looks at the date
    only: an entry under the name dated today counts for one wherever in
    the day it falls, an entry of another day or under another name counts
    for nothing. *)
Theorem today_count_by_name_and_date now medId context st medIndex med :
  resolves st medId medIndex med →
  (∀ profile,
     fst (getDoseProgress now profile med) =
       entriesToday now (Medication.name med)
                    (UserProfile.history profile)) ∧
  (let newProfile := fst (recordMedicationDose now medId context st) in
   ∃ med',
     UserProfile.medications newProfile !! medIndex = Some med' ∧
     Medication.takenToday med' =
       bool_decide
         (getTargetDoses med ≤
          entriesToday now (Medication.name med)
                       (UserProfile.history newProfile))) ∧
  (let newProfile := fst (removeLastMedicationDose now medId st) in
   ∃ med',
     UserProfile.medications newProfile !! medIndex = Some med' ∧
     Medication.takenToday med' =
       bool_decide
         (getTargetDoses med ≤
          entriesToday now (Medication.name med)
                       (UserProfile.history newProfile))) ∧
  (∀ profile h,
     MedicationLog.medName h = Medication.name med →
     toDateString (MedicationLog.timestamp h) = toDateString now →
     fst (getDoseProgress now (withEntry h profile) med) =
       S (fst (getDoseProgress now profile med))) ∧
  (∀ profile h,
     MedicationLog.medName h ≠ Medication.name med ∨
     toDateString (MedicationLog.timestamp h) ≠ toDateString now →
     fst (getDoseProgress now (withEntry h profile) med) =
       fst (getDoseProgress now profile med)).
Proof.
  intros Hres.
  pose proof (resolves_lookup _ _ _ _ Hres) as [Hi _].
  apply lookup_lt_Some in Hi.
  assert (Hprogress : ∀ profile,
            fst (getDoseProgress now profile med) =
            countToday now (UserProfile.history profile)
                       (Medication.name med)) by reflexivity.
  split_and!.
  - intros profile. rewrite Hprogress. apply countToday_entriesToday.
  - cbv zeta. eexists. split.
    + rewrite (recordMedicationDose_medications _ _ _ _ _ _ Hres).
      apply list_lookup_insert_eq, Hi.
    + rewrite <- countToday_entriesToday.
      rewrite (recordMedicationDose_history _ _ _ _ _ _ Hres).
      rewrite countToday_cons_taken by (split; reflexivity).
      reflexivity.
  - cbv zeta. rewrite (removeLastMedicationDose_unfold now _ _ _ _ Hres).
    cbv zeta. cbn [fst UserProfile.medications UserProfile.history
                   UserProfile.with_medications_history].
    eexists. split; [apply list_lookup_insert_eq, Hi|].
    rewrite <- countToday_entriesToday. reflexivity.
  - intros profile h Hname Hday. rewrite !Hprogress.
    unfold withEntry.
    cbn [UserProfile.history UserProfile.with_medications_history].
    apply countToday_cons_taken. split; assumption.
  - intros profile h Hother. rewrite !Hprogress.
    unfold withEntry.
    cbn [UserProfile.history UserProfile.with_medications_history].
    destruct Hother as [Hname|Hday].
    + apply countToday_other_name, Hname.
    + apply countToday_other_day, Hday.
Qed.

End TodayCount.

Section RevisedOnUTC.
Import Scenario Cases.
#[local] Existing Instance UTC.host.

(** On the UTC host: of two doses one millisecond apart and both within
    the last 24 hours, the one dated today is counted and the one dated
    yesterday is not. *)
Lemma today_count_by_name_and_date_witness :
  resolves (Some aroundMidnight) "m2" 1 (aspirina true) ∧
  fst (getDoseProgress jan5_0800 aroundMidnight (aspirina true)) = 1 ∧
  entriesToday jan5_0800 "Aspirina" (UserProfile.history aroundMidnight) = 1 ∧
  (jan5_0800 - lastMsOfJan4 < 24 * 3600 * 1000)%Z.
Proof.
  assert (Hres : resolves (Some aroundMidnight) "m2" 1 (aspirina true))
    by reflexivity.
  split; [exact Hres|].
  destruct (today_count_by_name_and_date jan5_0800 "m2" None
              (Some aroundMidnight) 1 (aspirina true) Hres)
    as (Hprogress & _).
  split_and!.
  - rewrite (Hprogress aroundMidnight). reflexivity.
  - reflexivity.
  - vm_compute. reflexivity.
Defined.


End RevisedOnUTC.
